(** * The package manager of arduino-cli: resolution chain, board lookup
      and tool-dependency resolution

    Shallow embedding of [cores/packagemanager/package_manager.go].

    - Go maps are [gmap string _]; [m[k]] is [m !! k].  Go leaves the
      order of [range m] open: the order is a parameter ([RangeOrder]),
      and the theorems hold for every order.
    - A Go result [(T, error)] is a pair [option T * option error], with
      [None] for [nil].
    - A call that can dereference a nil pointer or call [panic] returns an
      [outcome]: either [Returns v] or [Panics msg].
    - The back pointers of the entities ([ToolRelease.Tool],
      [Tool.Package], [Board.PlatformRelease]) are kept as the fields read
      through them, the object graph being cyclic.
    - A method is named after its receiver, [toolActions_Get] for the
      method [Get] of [toolActions], and a field after its struct when the
      bare name is taken.
    - The debugging [fmt.Println] of [FindBoardWithFQBN] and the logging
      switches are left out. *)

From Stdlib Require Import Ascii String.
From stdpp Require Import base option list strings gmap fin_maps.

Open Scope string_scope.

(** ** Fragments of the Go runtime and standard library *)

Module golang.

(** The ways a call can end: it returns, or the goroutine panics. *)
Inductive outcome (A : Type) : Type :=
| Returns (a : A)
| Panics (msg : string).
Arguments Returns {A} a.
Arguments Panics {A} msg.

#[global] Instance outcome_ret : MRet outcome := λ A a, Returns a.
#[global] Instance outcome_bind : MBind outcome := λ A B f o,
  match o with
  | Returns a => f a
  | Panics msg => Panics msg
  end.

Definition nil_dereference : string :=
  "invalid memory address or nil pointer dereference".

(** Reading a field through a pointer that may be nil. *)
Definition deref {A : Type} (p : option A) : outcome A :=
  match p with
  | Some a => Returns a
  | None => Panics nil_dereference
  end.

(** An [error] is represented by its message. *)
Definition error : Type := string.
Definition errors_New (text : string) : error := text.

(** [strings.Split(s, sep)] for a separator of one byte: the pieces of
    [s] between the occurrences of [sep], in order.  A string without
    the separator (the empty one too) gives one piece. *)
Fixpoint Split (s : string) (sep : ascii) : list string :=
  match s with
  | EmptyString => [EmptyString]
  | String c s' =>
      if decide (c = sep) then EmptyString :: Split s' sep
      else match Split s' sep with
           | piece :: pieces => String c piece :: pieces
           | [] => [String c EmptyString]
           end
  end.

(** Number of occurrences of a byte in a string. *)
Fixpoint count_byte (s : string) (sep : ascii) : nat :=
  match s with
  | EmptyString => 0
  | String c s' => (if decide (c = sep) then 1 else 0) + count_byte s' sep
  end.

(** [strings.Contains]. *)
Definition Contains (s substr : string) : Prop :=
  ∃ before after, s = before +:+ substr +:+ after.

(** [for k, v := range m] visits every entry of the map once, in an order
    that Go leaves open.  The order is a parameter of the embedding: any
    listing of the entries of the map. *)
Class RangeOrder : Type := {
  range_entries : ∀ V : Type, gmap string V → list (string * V);
  range_entries_perm : ∀ (V : Type) (m : gmap string V),
    range_entries V m ≡ₚ map_to_list m;
}.
Arguments range_entries {_ V} m.

(** [for _, v := range m]: the values, in the order they are visited. *)
Definition range `{!RangeOrder} {V : Type} (m : gmap string V) : list V :=
  (range_entries m).*2.

(** One order among others: that of the listing of the library. *)
Definition map_order : RangeOrder :=
  {| range_entries := λ V, map_to_list;
     range_entries_perm := λ V m, Permutation_refl (map_to_list m) |}.

(** A loop [for _, a := range l { body }] whose body may leave the
    enclosing function: [body a] is [Some r] for [return r] and [None] when
    the body ends or reaches [continue].  The loop gives [None] when it
    runs to its end. *)
Fixpoint for_range {A R : Type} (l : list A) (body : A → option R) : option R :=
  match l with
  | [] => None
  | a :: l' =>
      match body a with
      | Some r => Some r
      | None => for_range l' body
      end
  end.

End golang.
Export golang.

(** ** The entities of package [cores]

    The package manager imports package [cores], whose file is outside
    the one embedded here: what it uses of it is modelled from the data
    model of the spec. *)

Module cores.

(** Modelled from the spec: the struct [cores.ToolDependency], the value
    (tool packager, tool name, exact version) declared by a platform. *)
Record ToolDependency : Type := {
  ToolPackager : string;
  ToolName : string;
  ToolVersion : string;
}.

(** Modelled from the spec: the method [String] of [cores.ToolDependency],
    used by the format "%s"; the spec only requires the text to name the
    dependency, here by its packager, tool and version. *)
Definition ToolDependency_String (dep : ToolDependency) : string :=
  ToolPackager dep +:+ ":" +:+ ToolName dep +:+ "@" +:+ ToolVersion dep.

(** Modelled from the spec: the back pointer [Tool] of [cores.ToolRelease],
    as the two names read through it, [Tool.Package.Name] and
    [Tool.Name]; a release belongs to one tool and a tool to one
    package. *)
Record ToolRef : Type := {
  ToolRef_Package : string;
  ToolRef_Name : string;
}.

(** Modelled from the spec: the method [String] of [cores.Tool]; the
    identity of a tool is the text "packager:tool". *)
Definition ToolRef_String (tool : ToolRef) : string :=
  ToolRef_Package tool +:+ ":" +:+ ToolRef_Name tool.

(** Modelled from the spec: the struct [cores.ToolRelease]; a release has
    a version, an installed flag and belongs to one tool. *)
Record ToolRelease : Type := {
  Version : string;
  Installed : bool;
  ToolRelease_Tool : ToolRef;
}.

(** Modelled from the spec: the method [IsInstalled] of
    [cores.ToolRelease], which reads the installed flag. *)
Definition ToolRelease_IsInstalled (release : ToolRelease) : bool :=
  Installed release.

(** Modelled from the spec: the struct [cores.Tool]; a tool is named,
    belongs to one package and owns its releases keyed by version. *)
Record Tool : Type := {
  Tool_Name : string;
  Tool_Package : string;
  Tool_Releases : gmap string ToolRelease;
}.

(** Modelled from the spec: what a pointer to a [cores.Tool] stands for
    in a release of it. *)
Definition Tool_ref (tool : Tool) : ToolRef :=
  {| ToolRef_Package := Tool_Package tool; ToolRef_Name := Tool_Name tool |}.

(** Modelled from the spec: the method [String] of [cores.Tool], on the
    tool itself. *)
Definition Tool_String (tool : Tool) : string := ToolRef_String (Tool_ref tool).

(** Modelled from the spec: the back pointer [PlatformRelease] of
    [cores.Board], as the field read through it, the list of
    dependencies that the platform declares. *)
Record PlatformReleaseRef : Type := {
  Dependencies : list ToolDependency;
}.

(** Modelled from the spec: the struct [cores.Board]; a board has an
    identifier and refers to the platform release it belongs to. *)
Record Board : Type := {
  BoardId : string;
  Board_PlatformRelease : PlatformReleaseRef;
}.

(** Modelled from the spec: the struct [cores.PlatformRelease] as the
    registry holds it; a release of a platform is installed or not, and
    owns its boards. *)
Record PlatformRelease : Type := {
  PlatformRelease_Installed : bool;
  Boards : gmap string Board;
}.

(** Modelled from the spec: the struct [cores.Platform]; a platform has
    an architecture and a set of versioned releases. *)
Record Platform : Type := {
  Architecture : string;
  Platform_Releases : gmap string PlatformRelease;
}.

(** Modelled from the spec: the struct [cores.Package]; a package has a
    name and owns its platforms, keyed by architecture, and its tools,
    keyed by name. *)
Record Package : Type := {
  Package_Name : string;
  Platforms : gmap string Platform;
  Tools : gmap string Tool;
}.

(** Modelled from the spec: the struct [cores.Packages], the collection
    of the packages keyed by name (its field [Packages]). *)
Record Packages : Type := {
  Packages_ : gmap string Package;
}.

(** Modelled from the spec: the function [cores.NewPackages]; a new
    registry holds no package. *)
Definition NewPackages : Packages := {| Packages_ := ∅ |}.

(** Modelled from the spec: the method [GetRelease] of [cores.Tool]; a
    tool owns its releases keyed by version, and the release of a version
    is found whether it is installed or not. *)
Definition Tool_GetRelease (tool : Tool) (version : string) : option ToolRelease :=
  Tool_Releases tool !! version.

(** Modelled from the spec: the order on version texts that picks the
    latest release.  The spec leaves it open (semantic or lexicographic),
    so it is a parameter: [version_gt v w] says that [v] is a later
    version than [w]. *)
Class VersionOrder : Type := version_gt : string → string → bool.

(** Modelled from the spec: the method [GetLatestInstalled] of
    [cores.Tool]; it selects the highest version among the installed
    releases of the tool, and nothing when none is installed. *)
Definition Tool_GetLatestInstalled `{!RangeOrder, !VersionOrder} (tool : Tool)
  : option ToolRelease :=
  foldl (λ latest release,
           if ToolRelease_IsInstalled release then
             match latest with
             | None => Some release
             | Some l => if version_gt (Version release) (Version l)
                         then Some release else Some l
             end
           else latest)
        None (range (Tool_Releases tool)).

(** Modelled from the spec: the method [GetInstalled] of
    [cores.Platform]; it gives the installed release of the platform, of
    which there is at most one, and nothing when no release is
    installed. *)
Definition Platform_GetInstalled `{!RangeOrder} (platform : Platform)
  : option PlatformRelease :=
  head (filter (λ release, PlatformRelease_Installed release = true)
               (range (Platform_Releases platform))).

End cores.
Export cores.


(** ** The package manager *)

(** A value of the interface [EventHandler]: the object behind it, named
    by a number; its method belongs to the download layer. *)
Record EventHandler : Type := {
  EventHandler_object : nat;
}.

Record PackageManager : Type := {
  packages : Packages;
  eventHandler : option EventHandler;
}.

Definition NewPackageManager : PackageManager :=
  {| packages := NewPackages; eventHandler := None |}.

(** [Clear] assigns the field [packages] and nothing else. *)
Definition Clear (pm : PackageManager) : PackageManager :=
  {| packages := NewPackages; eventHandler := eventHandler pm |}.

Definition GetPackages (pm : PackageManager) : Packages := packages pm.

(** *** FindBoardWithFQBN *)

(** The search of the board, after the fqbn has been split: three nested
    loops, left by the first [return]. *)
Definition FindBoardWithFQBN_search `{!RangeOrder} (pm : PackageManager)
    (packageName platformArch boardID : string) : option Board * option error :=
  match
    for_range (range (Packages_ (packages pm))) (λ targetPackage,
      if decide (Package_Name targetPackage ≠ packageName) then None
      else
        for_range (range (Platforms targetPackage)) (λ targetPlatform,
          if decide (Architecture targetPlatform ≠ platformArch) then None
          else
            match Platform_GetInstalled targetPlatform with
            | None => Some (None, Some (errors_New "platform not installed"))
            | Some platform =>
                for_range (range (Boards platform)) (λ board,
                  if decide (BoardId board = boardID)
                  then Some (Some board, None)
                  else None)
            end))
  with
  | Some r => r
  | None => (None, Some (errors_New "board not found"))
  end.

Definition FindBoardWithFQBN `{!RangeOrder} (pm : PackageManager) (fqbn : string)
  : option Board * option error :=
  let fqbnParts := Split fqbn ":" in
  if bool_decide (List.length fqbnParts < 3) || bool_decide (4 < List.length fqbnParts) then
    (None, Some (errors_New "incorrect format for fqbn"))
  else
    match fqbnParts with
    | packageName :: platformArch :: boardID :: _ =>
        FindBoardWithFQBN_search pm packageName platformArch boardID
    | _ => (None, Some (errors_New "incorrect format for fqbn"))
    end.

(** *** Event handlers *)

(** [RegisterEventHandler] returns nothing; its effect is the new state
    of the manager, unless it panics. *)
Definition RegisterEventHandler (pm : PackageManager)
    (handler : option EventHandler) : outcome PackageManager :=
  match eventHandler pm with
  | Some _ =>
      Panics "Don't try to register another event handler to the PackageManager yet!"
  | None => Returns {| packages := packages pm; eventHandler := handler |}
  end.

(** The slice holds one pointer, to the field [eventHandler]; an element
    is here what that field holds. *)
Definition GetEventHandlers (pm : PackageManager) : list (option EventHandler) :=
  [] ++ [eventHandler pm].

(** *** The fluent chain Package, Tool, Release *)

Record packageActions : Type := {
  aPackage : option Package;
  packageActions_forwardError : option error;
}.

Record toolActions : Type := {
  tool : option Tool;
  toolActions_forwardError : option error;
}.

Record toolReleaseActions : Type := {
  release : option ToolRelease;
  toolReleaseActions_forwardError : option error;
}.

Definition PackageManager_Package (pm : PackageManager) (name : string)
  : packageActions :=
  let thePackage := Packages_ (packages pm) !! name in
  let err := match thePackage with
             | None => Some ("package '" +:+ name +:+ "' not found")
             | Some _ => None
             end in
  {| aPackage := thePackage; packageActions_forwardError := err |}.

Definition packageActions_Tool (pa : packageActions) (name : string)
  : outcome toolActions :=
  match packageActions_forwardError pa with
  | None =>
      thePackage ← deref (aPackage pa);
      let tool := Tools thePackage !! name in
      let err := match tool with
                 | None => Some ("tool '" +:+ name +:+ "' not found in package '"
                                 +:+ Package_Name thePackage +:+ "'")
                 | Some _ => None
                 end in
      Returns {| tool := tool; toolActions_forwardError := err |}
  | Some err =>
      Returns {| tool := None; toolActions_forwardError := Some err |}
  end.

Definition toolActions_Get (ta : toolActions) : option Tool * option error :=
  match toolActions_forwardError ta with
  | None => (tool ta, None)
  | Some err => (None, Some err)
  end.

Definition toolActions_IsInstalled `{!RangeOrder} (ta : toolActions)
  : outcome (bool * option error) :=
  match toolActions_forwardError ta with
  | Some err => Returns (false, Some err)
  | None =>
      theTool ← deref (tool ta);
      match
        for_range (range (Tool_Releases theTool)) (λ release,
          if ToolRelease_IsInstalled release then Some (true, None) else None)
      with
      | Some r => Returns r
      | None => Returns (false, None)
      end
  end.

Definition toolActions_Release (ta : toolActions) (version : string)
  : outcome toolReleaseActions :=
  match toolActions_forwardError ta with
  | Some err =>
      Returns {| release := None; toolReleaseActions_forwardError := Some err |}
  | None =>
      theTool ← deref (tool ta);
      match Tool_GetRelease theTool version with
      | None =>
          Returns {| release := None;
                     toolReleaseActions_forwardError :=
                       Some ("release " +:+ version +:+ " not found for tool "
                             +:+ Tool_String theTool) |}
      | Some rel =>
          Returns {| release := Some rel; toolReleaseActions_forwardError := None |}
      end
  end.

Definition toolReleaseActions_Get (tr : toolReleaseActions)
  : option ToolRelease * option error :=
  match toolReleaseActions_forwardError tr with
  | Some err => (None, Some err)
  | None => (release tr, None)
  end.

(** *** Tools required for a board *)

Definition FindToolDependency (pm : PackageManager) (dep : ToolDependency)
  : outcome (option ToolRelease) :=
  ta ← packageActions_Tool (PackageManager_Package pm (ToolPackager dep)) (ToolName dep);
  tr ← toolActions_Release ta (ToolVersion dep);
  match toolReleaseActions_Get tr with
  | (_, Some _) => Returns None
  | (toolRelease, None) => Returns toolRelease
  end.

(** [foundTools[rel.Tool.String()] = rel] *)
Definition set_found (foundTools : gmap string ToolRelease) (rel : ToolRelease)
  : gmap string ToolRelease :=
  <[ToolRef_String (ToolRelease_Tool rel) := rel]> foundTools.

(** The first loop: the latest installed release of every tool of every
    package. *)
Definition default_tools_of_package `{!RangeOrder, !VersionOrder}
    (foundTools : gmap string ToolRelease) (targetPackage : Package)
  : gmap string ToolRelease :=
  foldl (λ found tool,
           match Tool_GetLatestInstalled tool with
           | Some rel => set_found found rel
           | None => found
           end)
        foundTools (range (Tools targetPackage)).

Definition default_tools `{!RangeOrder, !VersionOrder} (pm : PackageManager)
  : gmap string ToolRelease :=
  foldl default_tools_of_package ∅ (range (Packages_ (packages pm))).

(** The second loop: the tools required by the platform replace the
    defaults; [inr err] is the early [return nil, err]. *)
Fixpoint required_tools (pm : PackageManager) (deps : list ToolDependency)
    (foundTools : gmap string ToolRelease)
  : outcome (gmap string ToolRelease + error) :=
  match deps with
  | [] => Returns (inl foundTools)
  | toolDep :: deps' =>
      tool ← FindToolDependency pm toolDep;
      match tool with
      | None =>
          Returns (inr ("tool release not found: " +:+ ToolDependency_String toolDep))
      | Some tool => required_tools pm deps' (set_found foundTools tool)
      end
  end.

Definition FindToolsRequiredForBoard `{!RangeOrder, !VersionOrder} (pm : PackageManager)
    (board : Board) : outcome (option (list ToolRelease) * option error) :=
  let platform := Board_PlatformRelease board in
  found ← required_tools pm (Dependencies platform) (default_tools pm);
  match found with
  | inr err => Returns (None, Some err)
  | inl foundTools => Returns (Some (range foundTools), None)
  end.

(** *** The searches over all boards and all tools *)

(** [FindBoardsWithVidPid].  The method [HasUsbID] of [cores.Board] is
    outside the embedded file and is a parameter. *)
Definition FindBoardsWithVidPid `{!RangeOrder}
    (HasUsbID : Board → string → string → bool)
    (pm : PackageManager) (vid pid : string) : list Board :=
  foldl (λ res targetPackage,
    foldl (λ res targetPlatform,
      match Platform_GetInstalled targetPlatform with
      | Some platform =>
          foldl (λ res board,
                   if HasUsbID board vid pid then (res ++ [board])%list else res)
                res (range (Boards platform))
      | None => res
      end)
    res (range (Platforms targetPackage)))
  [] (range (Packages_ (packages pm))).

Definition FindBoardsWithID `{!RangeOrder} (pm : PackageManager) (id : string)
  : list Board :=
  foldl (λ res targetPackage,
    foldl (λ res targetPlatform,
      match Platform_GetInstalled targetPlatform with
      | Some platform =>
          foldl (λ res board,
                   if decide (BoardId board = id) then (res ++ [board])%list else res)
                res (range (Boards platform))
      | None => res
      end)
    res (range (Platforms targetPackage)))
  [] (range (Packages_ (packages pm))).

Definition GetAllInstalledToolsReleases `{!RangeOrder} (pm : PackageManager)
  : list ToolRelease :=
  foldl (λ tools targetPackage,
    foldl (λ tools tool,
      foldl (λ tools release,
               if ToolRelease_IsInstalled release then (tools ++ [release])%list
               else tools)
            tools (range (Tool_Releases tool)))
    tools (range (Tools targetPackage)))
  [] (range (Packages_ (packages pm))).

(** ** Notions used by the statements *)

(** The invariant of the registry: a package is filed under its name and
    a platform under its architecture. *)
Definition registry_wf (pm : PackageManager) : Prop :=
  map_Forall (λ name thePackage,
                Package_Name thePackage = name ∧
                map_Forall (λ arch platform, Architecture platform = arch)
                           (Platforms thePackage))
             (Packages_ (packages pm)).

#[global] Instance registry_wf_dec pm : Decision (registry_wf pm).
Proof. unfold registry_wf. apply _. Defined.

(** The release a dependency names, read off the three maps. *)
Definition resolve_dependency (pm : PackageManager) (dep : ToolDependency)
  : option ToolRelease :=
  thePackage ← Packages_ (packages pm) !! ToolPackager dep;
  theTool ← Tools thePackage !! ToolName dep;
  Tool_Releases theTool !! ToolVersion dep.

(** The releases the first loop of [FindToolsRequiredForBoard] files, in
    the order it meets them. *)
Definition default_candidates `{!RangeOrder, !VersionOrder} (pm : PackageManager)
  : list ToolRelease :=
  targetPackage ← range (Packages_ (packages pm));
  theTool ← range (Tools targetPackage);
  option_list (Tool_GetLatestInstalled theTool).

(** The identity "packager:tool" of the tool a release belongs to. *)
Definition identity (rel : ToolRelease) : string :=
  ToolRef_String (ToolRelease_Tool rel).

(** A board of an installed release of some platform of some package. *)
Definition board_installed `{!RangeOrder} (pm : PackageManager) (board : Board)
  : Prop :=
  ∃ packageKey thePackage arch thePlatform platform boardKey,
    Packages_ (packages pm) !! packageKey = Some thePackage ∧
    Platforms thePackage !! arch = Some thePlatform ∧
    Platform_GetInstalled thePlatform = Some platform ∧
    Boards platform !! boardKey = Some board.

(** A release that the registry holds, under some package, tool and
    version. *)
Definition release_stored (pm : PackageManager) (rel : ToolRelease) : Prop :=
  ∃ packageKey thePackage toolKey theTool version,
    Packages_ (packages pm) !! packageKey = Some thePackage ∧
    Tools thePackage !! toolKey = Some theTool ∧
    Tool_Releases theTool !! version = Some rel.

(** The back pointers of the releases agree with the place where the
    registry holds them: a release filed under package [P] and tool [T]
    points to the tool [T] of the package [P]. *)
Definition tools_wf (pm : PackageManager) : Prop :=
  map_Forall (λ packageKey thePackage,
    map_Forall (λ toolKey theTool,
      map_Forall (λ _ rel,
        ToolRelease_Tool rel
          = {| ToolRef_Package := packageKey; ToolRef_Name := toolKey |})
      (Tool_Releases theTool))
    (Tools thePackage))
  (Packages_ (packages pm)).

#[global] Instance ToolRef_eq_dec : EqDecision ToolRef.
Proof. solve_decision. Defined.

#[global] Instance tools_wf_dec pm : Decision (tools_wf pm).
Proof. unfold tools_wf. apply _. Defined.

(** The boards of a release are filed under their identifiers. *)
Definition boards_wf (platform : PlatformRelease) : Prop :=
  map_Forall (λ boardKey board, BoardId board = boardKey) (Boards platform).

#[global] Instance boards_wf_dec platform : Decision (boards_wf platform).
Proof. unfold boards_wf. apply _. Defined.

(** The handles of the fluent chain carry an entity or an error, never
    both and never neither. *)
Definition packageActions_ok (pa : packageActions) : Prop :=
  is_Some (aPackage pa) ↔ packageActions_forwardError pa = None.

Definition toolActions_ok (ta : toolActions) : Prop :=
  is_Some (tool ta) ↔ toolActions_forwardError ta = None.

Definition toolReleaseActions_ok (tr : toolReleaseActions) : Prop :=
  is_Some (release tr) ↔ toolReleaseActions_forwardError tr = None.

(** ** A registry for the examples *)

(** Versions compared as texts. *)
Definition lexicographic : VersionOrder := λ v w, String.ltb w v.

Definition avr_gcc_4 : ToolRelease :=
  {| Version := "4.9.2"; Installed := true;
     ToolRelease_Tool := {| ToolRef_Package := "arduino"; ToolRef_Name := "avr-gcc" |} |}.

Definition avr_gcc_7 : ToolRelease :=
  {| Version := "7.3.0"; Installed := true;
     ToolRelease_Tool := {| ToolRef_Package := "arduino"; ToolRef_Name := "avr-gcc" |} |}.

Definition avrdude_6 : ToolRelease :=
  {| Version := "6.3.0"; Installed := true;
     ToolRelease_Tool := {| ToolRef_Package := "arduino"; ToolRef_Name := "avrdude" |} |}.

(** A release that the index lists and that is not installed. *)
Definition bossac_1 : ToolRelease :=
  {| Version := "1.7.0"; Installed := false;
     ToolRelease_Tool := {| ToolRef_Package := "arduino"; ToolRef_Name := "bossac" |} |}.

Definition avr_gcc : Tool :=
  {| Tool_Name := "avr-gcc"; Tool_Package := "arduino";
     Tool_Releases := {[ "4.9.2" := avr_gcc_4; "7.3.0" := avr_gcc_7 ]} |}.

Definition avrdude : Tool :=
  {| Tool_Name := "avrdude"; Tool_Package := "arduino";
     Tool_Releases := {[ "6.3.0" := avrdude_6 ]} |}.

Definition bossac : Tool :=
  {| Tool_Name := "bossac"; Tool_Package := "arduino";
     Tool_Releases := {[ "1.7.0" := bossac_1 ]} |}.

Definition pin (name version : string) : ToolDependency :=
  {| ToolPackager := "arduino"; ToolName := name; ToolVersion := version |}.

(** The platform of [uno] pins avr-gcc to the older installed release. *)
Definition uno : Board :=
  {| BoardId := "uno";
     Board_PlatformRelease := {| Dependencies := [pin "avr-gcc" "4.9.2"] |} |}.

(** The platform of [zero] requires a release that is not installed. *)
Definition zero : Board :=
  {| BoardId := "zero";
     Board_PlatformRelease := {| Dependencies := [pin "bossac" "1.7.0"] |} |}.

(** The platform of [due] requires a release that the registry lacks. *)
Definition due : Board :=
  {| BoardId := "due";
     Board_PlatformRelease :=
       {| Dependencies := [pin "avr-gcc" "4.9.2"; pin "bossac" "1.9.9";
                           pin "avrdude" "6.3.0"] |} |}.

Definition avr : Platform :=
  {| Architecture := "avr";
     Platform_Releases :=
       {[ "1.6.23" := {| PlatformRelease_Installed := true;
                         Boards := {[ "uno" := uno ]} |} ]} |}.

Definition sam : Platform :=
  {| Architecture := "sam";
     Platform_Releases :=
       {[ "1.6.12" := {| PlatformRelease_Installed := false;
                         Boards := {[ "due" := due ]} |} ]} |}.

Definition arduino : Package :=
  {| Package_Name := "arduino";
     Platforms := {[ "avr" := avr; "sam" := sam ]};
     Tools := {[ "avr-gcc" := avr_gcc; "avrdude" := avrdude; "bossac" := bossac ]} |}.

Definition progress_bar : EventHandler := {| EventHandler_object := 1 |}.
Definition progress_log : EventHandler := {| EventHandler_object := 2 |}.

Definition sample_pm : PackageManager :=
  {| packages := {| Packages_ := {[ "arduino" := arduino ]} |};
     eventHandler := Some progress_bar |}.

(** The usb identifiers of the sample: the board uno answers to one
    pair. *)
Definition sample_HasUsbID (board : Board) (vid pid : string) : bool :=
  bool_decide (BoardId board = "uno" ∧ vid = "0x2341" ∧ pid = "0x0043").

(** A second platform of the sample, installed, whose platform pins two
    releases of the same tool. *)
Definition mega : Board :=
  {| BoardId := "mega";
     Board_PlatformRelease :=
       {| Dependencies := [pin "avr-gcc" "7.3.0"; pin "avr-gcc" "4.9.2"] |} |}.

(** Another order of the maps, the listing of the library backwards, and
    another order of the versions, under which no version is later than
    another. *)
Definition backwards_order : RangeOrder :=
  {| range_entries := λ V m, reverse (map_to_list m);
     range_entries_perm := λ V m, reverse_Permutation (map_to_list m) |}.

Definition no_later_version : VersionOrder := λ _ _, false.

(** * Properties *)

(** A decidable statement about concrete data, settled by evaluation. *)
Ltac by_computation := apply (bool_decide_unpack _); vm_compute; exact I.

(** ** The Go fragments *)

Section split.
Context (sep : ascii).

Lemma Split_not_nil s : Split s sep ≠ [].
Proof.
  destruct s as [|c s]; simpl; [done|].
  case_decide; [done|]. by destruct (Split s sep).
Qed.

(** A string has one piece more than it has separators. *)
Lemma Split_length s : List.length (Split s sep) = S (count_byte s sep).
Proof.
  induction s as [|c s IH]; simpl; [done|].
  case_decide; simpl; [by rewrite IH|].
  destruct (Split s sep) eqn:E; simpl in *; [done|lia].
Qed.

Lemma Split_no_sep s : count_byte s sep = 0 → Split s sep = [s].
Proof.
  induction s as [|c s IH]; simpl; [done|].
  case_decide; [done|]. intros Hs. by rewrite IH.
Qed.

Lemma Split_app s rest :
  count_byte s sep = 0 →
  Split (s +:+ String sep rest) sep = s :: Split rest sep.
Proof.
  induction s as [|c s IH]; simpl.
  - intros _. by rewrite decide_True.
  - case_decide; [done|]. intros Hs. by rewrite IH.
Qed.

End split.

Example Split_3 : Split "arduino:avr:uno" ":" = ["arduino"; "avr"; "uno"].
Proof. reflexivity. Qed.

Example Split_empty : Split "" ":" = [""].
Proof. reflexivity. Qed.

Example Split_colons : Split "::" ":" = [""; ""; ""].
Proof. reflexivity. Qed.

Section for_range.
Context {A R : Type} (body : A → option R).

Lemma for_range_None l :
  for_range l body = None ↔ Forall (λ a, body a = None) l.
Proof.
  induction l as [|a l IH]; simpl; [by split|].
  rewrite Forall_cons. destruct (body a); [|tauto]. split; [done|by intros []].
Qed.

Lemma for_range_Some l r :
  for_range l body = Some r → ∃ a, a ∈ l ∧ body a = Some r.
Proof.
  induction l as [|a l IH]; simpl; [done|].
  destruct (body a) as [r'|] eqn:E.
  - intros [= <-]. exists a. split; [left|done].
  - intros (b & Hb & Hr)%IH. exists b. split; [by right|done].
Qed.

(** When at most one element can leave the loop, the loop does what its
    body does on that element, wherever it stands in the list. *)
Lemma for_range_unique l a :
  a ∈ l →
  (∀ b, b ∈ l → body b ≠ None → b = a) →
  for_range l body = body a.
Proof.
  induction l as [|b l IH]; [by intros ?%elem_of_nil|].
  intros Ha Huniq. simpl. destruct (body b) as [r|] eqn:E.
  - rewrite <- (Huniq b); [done|left|by rewrite E].
  - apply elem_of_cons in Ha as [->|Ha].
    + rewrite E. apply for_range_None, Forall_forall. intros c Hc.
      destruct (body c) eqn:Ec; [|done].
      rewrite (Huniq c) in Ec; [congruence|by right|by rewrite Ec].
    + apply IH; [done|]. intros c Hc. apply Huniq. by right.
Qed.

End for_range.

Lemma Contains_infix before substr after :
  Contains (before +:+ substr +:+ after) substr.
Proof. by exists before, after. Qed.

(** From here on the order of [range] and the order of the versions are
    arbitrary. *)
Section properties.
Context `{RO : RangeOrder} `{VO : VersionOrder}.

(** Whatever the order, the values visited by [range] are the values
    stored in the map, and every key is met once. *)
Lemma elem_of_range {V : Type} (m : gmap string V) (v : V) :
  v ∈ range m ↔ ∃ k, m !! k = Some v.
Proof.
  unfold range. rewrite list_elem_of_fmap. split.
  - intros ([k v'] & -> & Hkv). exists k.
    rewrite range_entries_perm in Hkv. by apply elem_of_map_to_list.
  - intros [k Hk]. exists (k, v). split; [done|].
    rewrite range_entries_perm. by apply elem_of_map_to_list.
Qed.

Lemma NoDup_fst_range_entries {V : Type} (m : gmap string V) :
  NoDup (range_entries m).*1.
Proof. rewrite range_entries_perm. apply NoDup_fst_map_to_list. Qed.

Lemma elem_of_range_entries {V : Type} (m : gmap string V) (k : string) (v : V) :
  (k, v) ∈ range_entries m ↔ m !! k = Some v.
Proof. rewrite range_entries_perm. apply elem_of_map_to_list. Qed.

(** ** FindBoardWithFQBN *)

(** With three or four pieces the function is the search for the first
    three of them. *)
Lemma FindBoardWithFQBN_split pm fqbn packageName platformArch boardID rest :
  Split fqbn ":" = packageName :: platformArch :: boardID :: rest →
  (List.length rest ≤ 1)%nat →
  FindBoardWithFQBN pm fqbn =
    FindBoardWithFQBN_search pm packageName platformArch boardID.
Proof.
  intros Hsplit Hrest. unfold FindBoardWithFQBN. rewrite Hsplit.
  cbn [List.length].
  rewrite (bool_decide_eq_false_2 (_ < 3)) by lia.
  rewrite (bool_decide_eq_false_2 (4 < _)) by lia. done.
Qed.

(** The search has three results: a board, or one of two errors. *)
Lemma FindBoardWithFQBN_search_cases pm packageName platformArch boardID :
  (∃ board, FindBoardWithFQBN_search pm packageName platformArch boardID
            = (Some board, None) ∧ BoardId board = boardID) ∨
  FindBoardWithFQBN_search pm packageName platformArch boardID
    = (None, Some (errors_New "platform not installed")) ∨
  FindBoardWithFQBN_search pm packageName platformArch boardID
    = (None, Some (errors_New "board not found")).
Proof.
  unfold FindBoardWithFQBN_search.
  destruct (for_range _ _) as [r|] eqn:E; [|by right; right].
  apply for_range_Some in E as (targetPackage & _ & E).
  case_decide; [done|].
  apply for_range_Some in E as (targetPlatform & _ & E).
  case_decide; [done|].
  destruct (Platform_GetInstalled targetPlatform) as [platform|].
  - apply for_range_Some in E as (board & _ & E).
    case_decide; [|done]. injection E as <-. left. by exists board.
  - injection E as <-. by right; left.
Qed.

Lemma FindBoardWithFQBN_search_format pm packageName platformArch boardID :
  FindBoardWithFQBN_search pm packageName platformArch boardID
    ≠ (None, Some (errors_New "incorrect format for fqbn")).
Proof.
  destruct (FindBoardWithFQBN_search_cases pm packageName platformArch boardID)
    as [(board & -> & _)|[-> | ->]]; discriminate.
Qed.

(** C4 (as amended): the error "incorrect format for fqbn" is returned
    exactly when the number of pieces between colons, empty pieces
    counted, is neither 3 nor 4.  The pieces are one more than the colons
    of the string, and with 3 or 4 of them the function goes on to search
    the registry for the first three. *)
Theorem FindBoardWithFQBN_incorrect_format (pm : PackageManager) (fqbn : string) :
  List.length (Split fqbn ":") = S (count_byte fqbn ":") ∧
  (FindBoardWithFQBN pm fqbn = (None, Some (errors_New "incorrect format for fqbn"))
   ↔ ¬ (List.length (Split fqbn ":") = 3 ∨ List.length (Split fqbn ":") = 4)) ∧
  (List.length (Split fqbn ":") = 3 ∨ List.length (Split fqbn ":") = 4 →
   ∃ packageName platformArch boardID rest,
     Split fqbn ":" = packageName :: platformArch :: boardID :: rest ∧
     FindBoardWithFQBN pm fqbn =
       FindBoardWithFQBN_search pm packageName platformArch boardID).
Proof.
  split; [apply Split_length|].
  assert (List.length (Split fqbn ":") = 3 ∨ List.length (Split fqbn ":") = 4 →
          ∃ packageName platformArch boardID rest,
            Split fqbn ":" = packageName :: platformArch :: boardID :: rest ∧
            FindBoardWithFQBN pm fqbn =
              FindBoardWithFQBN_search pm packageName platformArch boardID)
    as Hsearch.
  { intros Hlen.
    destruct (Split fqbn ":") as [|packageName [|platformArch [|boardID rest]]] eqn:E;
      simpl in Hlen; [lia..|].
    exists packageName, platformArch, boardID, rest. split; [done|].
    apply (FindBoardWithFQBN_split _ _ _ _ _ rest); [done|lia]. }
  split; [|done]. split.
  - intros Herr Hlen. destruct (Hsearch Hlen) as (p & a & b & rest & _ & Heq).
    rewrite Heq in Herr. by apply FindBoardWithFQBN_search_format in Herr.
  - intros Hlen. unfold FindBoardWithFQBN.
    destruct (bool_decide (List.length (Split fqbn ":") < 3)) eqn:E3; [done|].
    destruct (bool_decide (4 < List.length (Split fqbn ":"))) eqn:E4; [done|].
    apply bool_decide_eq_false in E3, E4. lia.
Qed.

(** No package of that name: the loop over the packages skips them all. *)
Lemma FindBoardWithFQBN_search_no_package pm packageName platformArch boardID :
  Forall (λ p, Package_Name p ≠ packageName) (range (Packages_ (packages pm))) →
  FindBoardWithFQBN_search pm packageName platformArch boardID
    = (None, Some (errors_New "board not found")).
Proof.
  intros Hnone. unfold FindBoardWithFQBN_search.
  rewrite (proj2 (for_range_None _ _)); [done|].
  eapply Forall_impl; [exact Hnone|]. intros p Hp. simpl. by rewrite decide_True.
Qed.

(** In a registry that files packages under their names, a name that the
    map does not hold is the name of no package. *)
Lemma registry_wf_no_package pm packageName :
  registry_wf pm →
  Packages_ (packages pm) !! packageName = None →
  Forall (λ p, Package_Name p ≠ packageName) (range (Packages_ (packages pm))).
Proof.
  intros Hwf Hnone. apply Forall_forall. intros p [k Hk]%elem_of_range Hname.
  destruct (Hwf k p Hk) as [Hk' _]. congruence.
Qed.

(** C3 (as amended): for an fqbn of 3 or 4 pieces whose first piece is
    the name of no package of the registry, the function fails with the
    error "board not found", the one it also gives for a missing board;
    it has no error of its own for a missing package. *)
Theorem FindBoardWithFQBN_package_absent (pm : PackageManager)
    (fqbn packageName platformArch boardID : string) (rest : list string) :
  Split fqbn ":" = packageName :: platformArch :: boardID :: rest →
  (List.length rest ≤ 1)%nat →
  Forall (λ p, Package_Name p ≠ packageName) (range (Packages_ (packages pm))) →
  FindBoardWithFQBN pm fqbn = (None, Some (errors_New "board not found")).
Proof.
  intros Hsplit Hrest Hnone.
  rewrite (FindBoardWithFQBN_split _ _ _ _ _ _ Hsplit Hrest).
  by apply FindBoardWithFQBN_search_no_package.
Qed.

(** What the body of the loop over the platforms does with the one
    platform of the architecture. *)
Lemma FindBoardWithFQBN_search_unique pm packageName platformArch boardID
    thePackage thePlatform :
  registry_wf pm →
  Packages_ (packages pm) !! packageName = Some thePackage →
  Platforms thePackage !! platformArch = Some thePlatform →
  FindBoardWithFQBN_search pm packageName platformArch boardID =
    match
      match Platform_GetInstalled thePlatform with
      | None => Some (None, Some (errors_New "platform not installed"))
      | Some platform =>
          for_range (range (Boards platform)) (λ board,
            if decide (BoardId board = boardID)
            then Some (Some board, None)
            else None)
      end
    with
    | Some r => r
    | None => (None, Some (errors_New "board not found"))
    end.
Proof.
  intros Hwf Hpkg Hplat. unfold FindBoardWithFQBN_search.
  destruct (Hwf _ _ Hpkg) as [Hname Hwfp].
  rewrite (for_range_unique _ _ thePackage).
  - rewrite decide_False by (by intros []).
    rewrite (for_range_unique _ _ thePlatform).
    + rewrite decide_False; [done|]. intros []. by apply Hwfp in Hplat.
    + apply elem_of_range. by exists platformArch.
    + intros q [k Hq]%elem_of_range Hbody. case_decide as Harch; [done|].
      pose proof (Hwfp _ _ Hq) as Hk. simpl in Hk. congruence.
  - apply elem_of_range. by exists packageName.
  - intros q [k Hq]%elem_of_range Hbody. case_decide as Hq'; [done|].
    destruct (Hwf _ _ Hq) as [Hk _]. congruence.
Qed.

Lemma Platform_GetInstalled_None thePlatform :
  Platform_GetInstalled thePlatform = None ↔
  map_Forall (λ _ r, PlatformRelease_Installed r = false)
             (Platform_Releases thePlatform).
Proof.
  unfold Platform_GetInstalled. rewrite head_None. split.
  - intros Hnil v r Hr.
    destruct (PlatformRelease_Installed r) eqn:E; [|done].
    assert (r ∈ filter (λ release, PlatformRelease_Installed release = true)
                       (range (Platform_Releases thePlatform))) as Hin.
    { apply list_elem_of_filter. split; [done|]. apply elem_of_range. eauto. }
    rewrite Hnil in Hin. by apply elem_of_nil in Hin.
  - intros Hall.
    destruct (filter _ _) as [|r l] eqn:E; [done|].
    assert (r ∈ filter (λ release, PlatformRelease_Installed release = true)
                       (range (Platform_Releases thePlatform))) as Hin
      by (rewrite E; left).
    apply list_elem_of_filter in Hin as [Hinst [v Hr]%elem_of_range].
    apply Hall in Hr. simpl in Hr. congruence.
Qed.

Lemma Split_fqbn packageName platformArch boardID :
  count_byte packageName ":" = 0 →
  count_byte platformArch ":" = 0 →
  count_byte boardID ":" = 0 →
  Split (packageName +:+ ":" +:+ platformArch +:+ ":" +:+ boardID) ":"
    = [packageName; platformArch; boardID].
Proof.
  intros Hp Ha Hb.
  change (":" +:+ platformArch +:+ ":" +:+ boardID)
    with (String ":" (platformArch +:+ String ":" boardID)).
  by rewrite !Split_app, Split_no_sep.
Qed.

(** C5: in a registry that files packages under their names and platforms
    under their architectures, let package [pkg] have a platform of
    architecture [arch].  When none of its releases is installed,
    FindBoardWithFQBN("pkg:arch:boardX") fails with "platform not
    installed"; when one is installed and has no board [boardX], it fails
    with "board not found"; and the two errors differ. *)
Theorem FindBoardWithFQBN_platform_not_installed (pm : PackageManager)
    (pkg arch boardX : string) (thePackage : Package) (thePlatform : Platform) :
  registry_wf pm →
  count_byte pkg ":" = 0 → count_byte arch ":" = 0 → count_byte boardX ":" = 0 →
  Packages_ (packages pm) !! pkg = Some thePackage →
  Platforms thePackage !! arch = Some thePlatform →
  (map_Forall (λ _ r, PlatformRelease_Installed r = false)
              (Platform_Releases thePlatform) →
   FindBoardWithFQBN pm (pkg +:+ ":" +:+ arch +:+ ":" +:+ boardX)
     = (None, Some (errors_New "platform not installed"))) ∧
  (∀ platform,
     Platform_GetInstalled thePlatform = Some platform →
     Forall (λ board, BoardId board ≠ boardX) (range (Boards platform)) →
     FindBoardWithFQBN pm (pkg +:+ ":" +:+ arch +:+ ":" +:+ boardX)
       = (None, Some (errors_New "board not found"))) ∧
  errors_New "platform not installed" ≠ errors_New "board not found".
Proof.
  intros Hwf Hp Ha Hb Hpkg Hplat.
  assert (FindBoardWithFQBN pm (pkg +:+ ":" +:+ arch +:+ ":" +:+ boardX)
          = FindBoardWithFQBN_search pm pkg arch boardX) as ->.
  { apply (FindBoardWithFQBN_split _ _ _ _ _ []); [|simpl; lia].
    by apply Split_fqbn. }
  rewrite (FindBoardWithFQBN_search_unique _ _ _ _ _ _ Hwf Hpkg Hplat).
  split; [|split; [|done]].
  - intros Hnone%Platform_GetInstalled_None. by rewrite Hnone.
  - intros platform -> Hboards.
    rewrite (proj2 (for_range_None _ _)); [done|].
    eapply Forall_impl; [exact Hboards|]. intros board Hboard. simpl.
    by rewrite decide_False.
Qed.

(** ** The fluent chain *)

(** C6: a handle that carries an error [e] hands the same error on:
    [Tool] and [Release] return a handle with [e] and no entity, the two
    [Get] return (nil, e) and [IsInstalled] returns (false, e).  On a
    handle without error whose tool has no installed release,
    [IsInstalled] returns (false, nil). *)
Theorem forwardError_propagates (e : error) :
  (∀ pa name,
     packageActions_forwardError pa = Some e →
     packageActions_Tool pa name
       = Returns {| tool := None; toolActions_forwardError := Some e |}) ∧
  (∀ ta version,
     toolActions_forwardError ta = Some e →
     toolActions_Release ta version
       = Returns {| release := None; toolReleaseActions_forwardError := Some e |} ∧
     toolActions_Get ta = (None, Some e) ∧
     toolActions_IsInstalled ta = Returns (false, Some e)) ∧
  (∀ tr,
     toolReleaseActions_forwardError tr = Some e →
     toolReleaseActions_Get tr = (None, Some e)) ∧
  (∀ theTool,
     map_Forall (λ _ r, ToolRelease_IsInstalled r = false) (Tool_Releases theTool) →
     toolActions_IsInstalled {| tool := Some theTool; toolActions_forwardError := None |}
       = Returns (false, None)).
Proof.
  split; [|split; [|split]].
  - intros pa name He. unfold packageActions_Tool. by rewrite He.
  - intros ta version He.
    unfold toolActions_Release, toolActions_Get, toolActions_IsInstalled.
    by rewrite He.
  - intros tr He. unfold toolReleaseActions_Get. by rewrite He.
  - intros theTool Hnone. unfold toolActions_IsInstalled. simpl.
    rewrite (proj2 (for_range_None _ _)); [done|].
    apply Forall_forall. intros r [v Hr]%elem_of_range.
    apply Hnone in Hr. simpl in Hr. by rewrite Hr.
Qed.

(** The handles made by the chain from [Package] never carry a nil entity
    without an error, so the chain does not panic: it returns what the
    three maps hold. *)
Lemma FindToolDependency_resolve pm dep :
  FindToolDependency pm dep = Returns (resolve_dependency pm dep).
Proof.
  unfold FindToolDependency, resolve_dependency, PackageManager_Package,
    packageActions_Tool, toolActions_Release, toolReleaseActions_Get,
    Tool_GetRelease.
  destruct (Packages_ (packages pm) !! ToolPackager dep) as [thePackage|];
    simpl; [|done].
  destruct (Tools thePackage !! ToolName dep) as [theTool|]; simpl; [|done].
  by destruct (Tool_Releases theTool !! ToolVersion dep).
Qed.

(** C7: when the registry holds package [P] with tool [T] with release
    [V], the chain Package(P).Tool(T).Release(V).Get() returns that
    release and no error.  For a name the registry does not hold, the
    handle of [Package] carries an error whose message contains the name,
    and the [Get] at the end of every chain from it returns that error. *)
Theorem chain_Get (pm : PackageManager) :
  (∀ P T V thePackage theTool rel,
     Packages_ (packages pm) !! P = Some thePackage →
     Tools thePackage !! T = Some theTool →
     Tool_Releases theTool !! V = Some rel →
     (ta ← packageActions_Tool (PackageManager_Package pm P) T;
      tr ← toolActions_Release ta V;
      Returns (toolReleaseActions_Get tr)) = Returns (Some rel, None)) ∧
  (∀ missing,
     Packages_ (packages pm) !! missing = None →
     ∃ e,
       Contains e missing ∧
       PackageManager_Package pm missing
         = {| aPackage := None; packageActions_forwardError := Some e |} ∧
       ∀ T V,
         (ta ← packageActions_Tool (PackageManager_Package pm missing) T;
          Returns (toolActions_Get ta)) = Returns (None, Some e) ∧
         (ta ← packageActions_Tool (PackageManager_Package pm missing) T;
          tr ← toolActions_Release ta V;
          Returns (toolReleaseActions_Get tr)) = Returns (None, Some e)).
Proof.
  split.
  - intros P T V thePackage theTool rel HP HT HV.
    unfold PackageManager_Package, packageActions_Tool. rewrite HP. simpl.
    rewrite HT. simpl. unfold toolActions_Release, Tool_GetRelease. simpl.
    by rewrite HV.
  - intros missing Hnone. exists ("package '" +:+ missing +:+ "' not found").
    split; [apply Contains_infix|].
    unfold PackageManager_Package. rewrite Hnone. done.
Qed.

(** ** The map of found tools *)

Section found_tools.
Implicit Types (found : gmap string ToolRelease) (rels : list ToolRelease).

Lemma foldl_set_found_snoc found rels rel :
  foldl set_found found (rels ++ [rel])
    = <[identity rel := rel]> (foldl set_found found rels).
Proof. by rewrite foldl_app. Qed.

(** A key that no new release has keeps its entry. *)
Lemma foldl_set_found_ne found rels k :
  Forall (λ r, identity r ≠ k) rels →
  foldl set_found found rels !! k = found !! k.
Proof.
  induction rels as [|rel rels IH] using rev_ind; [done|].
  rewrite Forall_app, Forall_singleton. intros [Hrels Hrel].
  rewrite foldl_set_found_snoc, lookup_insert_ne by done. by apply IH.
Qed.

(** An entry is a new release filed under its identity, or an old entry
    that no new release replaced. *)
Lemma foldl_set_found_inv found rels k rel :
  foldl set_found found rels !! k = Some rel →
  (rel ∈ rels ∧ identity rel = k) ∨
  (found !! k = Some rel ∧ Forall (λ r, identity r ≠ k) rels).
Proof.
  induction rels as [|r rels IH] using rev_ind.
  - intros Hk. right. by split.
  - rewrite foldl_set_found_snoc. destruct (decide (identity r = k)) as [<-|Hne].
    + rewrite lookup_insert_eq. intros [= ->]. left. split; [|done].
      apply elem_of_app. right. left.
    + rewrite lookup_insert_ne by done. intros [[Hin Hid]|[Hold Hall]]%IH.
      * left. split; [|done]. apply elem_of_app. by left.
      * right. split; [done|]. apply Forall_app. split; [done|].
        by apply Forall_singleton.
Qed.

(** The identity of a new release is served by a new release. *)
Lemma foldl_set_found_elem found rels rel :
  rel ∈ rels →
  ∃ rel', foldl set_found found rels !! identity rel = Some rel' ∧
          rel' ∈ rels ∧ identity rel' = identity rel.
Proof.
  induction rels as [|r rels IH] using rev_ind; [by intros ?%elem_of_nil|].
  intros Hin. rewrite foldl_set_found_snoc.
  destruct (decide (identity r = identity rel)) as [Heq|Hne].
  - exists r. rewrite Heq, lookup_insert_eq. split; [done|]. split; [|done].
    apply elem_of_app. right. left.
  - rewrite lookup_insert_ne by done.
    apply elem_of_app in Hin as [Hin|Hin%list_elem_of_singleton]; [|by subst].
    destruct (IH Hin) as (rel' & Hk & Hin' & Hid). exists rel'.
    split; [done|]. split; [|done]. apply elem_of_app. by left.
Qed.

Lemma foldl_set_found_unique found rels rel :
  rel ∈ rels →
  (∀ r, r ∈ rels → identity r = identity rel → r = rel) →
  foldl set_found found rels !! identity rel = Some rel.
Proof.
  intros Hin Huniq.
  destruct (foldl_set_found_elem found rels rel Hin) as (rel' & Hk & Hin' & Hid).
  by rewrite (Huniq rel' Hin' Hid) in Hk.
Qed.

(** Every entry is filed under the identity of its tool. *)
Lemma foldl_set_found_keys found rels :
  map_Forall (λ k r, identity r = k) found →
  map_Forall (λ k r, identity r = k) (foldl set_found found rels).
Proof.
  intros Hfound. induction rels as [|r rels IH] using rev_ind; [done|].
  rewrite foldl_set_found_snoc. by apply map_Forall_insert_2.
Qed.

End found_tools.

Lemma elem_of_option_list {A : Type} (x : A) (mx : option A) :
  x ∈ option_list mx ↔ mx = Some x.
Proof.
  destruct mx as [y|]; simpl.
  - rewrite list_elem_of_singleton. split; congruence.
  - rewrite elem_of_nil. split; [done|discriminate].
Qed.

(** The first loop files the latest installed releases one by one. *)
Lemma default_tools_candidates pm :
  default_tools pm = foldl set_found ∅ (default_candidates pm).
Proof.
  unfold default_tools, default_candidates.
  generalize (∅ : gmap string ToolRelease) as found.
  induction (range (Packages_ (packages pm))) as [|p pkgs IH]; intros found;
    [done|].
  simpl. rewrite foldl_app, <- IH. f_equal.
  unfold default_tools_of_package. clear. revert found.
  induction (range (Tools p)) as [|t tools IH]; intros found; [done|].
  simpl. rewrite foldl_app, <- IH. f_equal.
  by destruct (Tool_GetLatestInstalled t).
Qed.

Lemma elem_of_default_candidates pm rel :
  rel ∈ default_candidates pm ↔
  ∃ thePackage theTool,
    thePackage ∈ range (Packages_ (packages pm)) ∧
    theTool ∈ range (Tools thePackage) ∧
    Tool_GetLatestInstalled theTool = Some rel.
Proof.
  unfold default_candidates. rewrite list_elem_of_bind. split.
  - intros (p & (t & Hrel%elem_of_option_list & Ht)%list_elem_of_bind & Hp).
    by exists p, t.
  - intros (p & t & Hp & Ht & Hrel). exists p. split; [|done].
    apply list_elem_of_bind. exists t. split; [|done].
    by apply elem_of_option_list.
Qed.

(** The second loop, when every dependency names a release of the
    registry: the releases named are filed over the defaults. *)
Lemma required_tools_resolved pm deps found pinned :
  mapM (resolve_dependency pm) deps = Some pinned →
  required_tools pm deps found = Returns (inl (foldl set_found found pinned)).
Proof.
  intros Hall%mapM_Some_1. revert found.
  induction Hall as [|dep rel deps pinned Hdep _ IH]; intros found; [done|].
  simpl. rewrite FindToolDependency_resolve, Hdep. simpl. apply IH.
Qed.

(** The second loop, when some dependency names no release of the
    registry: it stops at the first one. *)
Lemma required_tools_unresolved pm deps found :
  Exists (λ dep, resolve_dependency pm dep = None) deps →
  ∃ before dep after,
    deps = (before ++ dep :: after)%list ∧
    Forall (λ d, is_Some (resolve_dependency pm d)) before ∧
    resolve_dependency pm dep = None ∧
    required_tools pm deps found
      = Returns (inr ("tool release not found: " +:+ ToolDependency_String dep)).
Proof.
  revert found. induction deps as [|d deps IH]; intros found Hex;
    [by apply Exists_nil in Hex|].
  destruct (resolve_dependency pm d) as [rel|] eqn:Hd.
  - apply Exists_cons in Hex as [Hex|Hex]; [congruence|].
    destruct (IH (set_found found rel) Hex)
      as (before & dep & after & -> & Hbefore & Hdep & Hres).
    exists (d :: before), dep, after. split; [done|].
    split; [by constructor; [rewrite Hd|]|]. split; [done|].
    simpl. by rewrite FindToolDependency_resolve, Hd.
  - exists [], d, deps. split; [done|]. split; [constructor|]. split; [done|].
    simpl. by rewrite FindToolDependency_resolve, Hd.
Qed.

(** ** FindToolsRequiredForBoard *)

(** What [GetLatestInstalled] selects is an installed release of the
    tool, and it selects one as soon as one is installed. *)
Lemma Tool_GetLatestInstalled_Some theTool rel :
  Tool_GetLatestInstalled theTool = Some rel →
  rel ∈ range (Tool_Releases theTool) ∧ ToolRelease_IsInstalled rel = true.
Proof.
  unfold Tool_GetLatestInstalled.
  induction (range (Tool_Releases theTool)) as [|r rels IH] using rev_ind;
    [done|].
  rewrite foldl_app. simpl.
  destruct (ToolRelease_IsInstalled r) eqn:Hr.
  - destruct (foldl _ None rels) as [l|] eqn:Hl.
    + destruct (version_gt (Version r) (Version l)).
      * intros [= <-]. split; [|done]. apply elem_of_app. right. left.
      * intros [= <-]. destruct (IH eq_refl) as [Hin Hinst].
        split; [|done]. apply elem_of_app. by left.
    + intros [= <-]. split; [|done]. apply elem_of_app. right. left.
  - intros Hrel. destruct (IH Hrel) as [Hin Hinst].
    split; [|done]. apply elem_of_app. by left.
Qed.

Lemma Tool_GetLatestInstalled_None theTool :
  Tool_GetLatestInstalled theTool = None ↔
  map_Forall (λ _ r, ToolRelease_IsInstalled r = false) (Tool_Releases theTool).
Proof.
  unfold Tool_GetLatestInstalled.
  transitivity (Forall (λ r, ToolRelease_IsInstalled r = false)
                       (range (Tool_Releases theTool))).
  - induction (range (Tool_Releases theTool)) as [|r rels IH] using rev_ind;
      [done|].
    rewrite foldl_app, Forall_app, Forall_singleton. simpl.
    destruct (ToolRelease_IsInstalled r).
    + split; [|by intros [_ ?]].
      destruct (foldl _ None rels) as [l|]; [|done].
      by destruct (version_gt (Version r) (Version l)).
    + rewrite IH. tauto.
  - rewrite Forall_forall. split.
    + intros Hall v r Hr. apply Hall, elem_of_range. eauto.
    + intros Hall r [v Hr]%elem_of_range. by apply Hall in Hr.
Qed.

(** The call never panics: the handles of the chain are made by
    [Package], so no nil entity is read. *)
Lemma FindToolsRequiredForBoard_Returns pm board :
  ∃ r, FindToolsRequiredForBoard pm board = Returns r.
Proof.
  unfold FindToolsRequiredForBoard.
  destruct (mapM (resolve_dependency pm)
                 (Dependencies (Board_PlatformRelease board)))
    as [pinned|] eqn:Hpinned.
  - rewrite (required_tools_resolved _ _ _ _ Hpinned). by eexists.
  - apply mapM_None_1 in Hpinned.
    destruct (required_tools_unresolved pm _ (default_tools pm) Hpinned)
      as (? & ? & ? & _ & _ & _ & ->).
    by eexists.
Qed.

(** C1: when every dependency declared by the platform of the board names
    a release of the registry, FindToolsRequiredForBoard returns a list
    made of the latest installed release of every tool of every package,
    filed under the identity "packager:tool", with the entries of the same
    identity replaced by the releases the dependencies name.  So a pinned
    release is in the list when no other pin has its identity, and the
    default of a tool is in the list when no pin and no other default has
    its identity. *)
Theorem FindToolsRequiredForBoard_overlay
    (pm : PackageManager) (board : Board) (pinned : list ToolRelease) :
  mapM (resolve_dependency pm) (Dependencies (Board_PlatformRelease board))
    = Some pinned →
  ∃ requiredTools,
    FindToolsRequiredForBoard pm board = Returns (Some requiredTools, None) ∧
    (∀ rel, rel ∈ requiredTools →
       rel ∈ pinned ∨
       (rel ∈ default_candidates pm ∧
        Forall (λ r, identity r ≠ identity rel) pinned)) ∧
    (∀ rel, rel ∈ pinned →
       ∃ rel', rel' ∈ requiredTools ∧ rel' ∈ pinned ∧
               identity rel' = identity rel) ∧
    (∀ rel, rel ∈ pinned →
       (∀ r, r ∈ pinned → identity r = identity rel → r = rel) →
       rel ∈ requiredTools) ∧
    (∀ rel, rel ∈ default_candidates pm →
       ∃ rel', rel' ∈ requiredTools ∧ identity rel' = identity rel) ∧
    (∀ rel, rel ∈ default_candidates pm →
       Forall (λ r, identity r ≠ identity rel) pinned →
       (∀ r, r ∈ default_candidates pm → identity r = identity rel → r = rel) →
       rel ∈ requiredTools).
Proof.
  intros Hpinned. unfold FindToolsRequiredForBoard.
  rewrite (required_tools_resolved _ _ _ _ Hpinned). simpl.
  rewrite default_tools_candidates.
  set (defaults := foldl set_found ∅ (default_candidates pm)).
  set (foundTools := foldl set_found defaults pinned).
  exists (range foundTools). split; [done|]. repeat split.
  - intros rel [k Hk]%elem_of_range.
    apply foldl_set_found_inv in Hk as [[Hin _]|[Hk Hall]]; [by left|right].
    apply foldl_set_found_inv in Hk as [[Hin <-]|[Hk _]]; [done|].
    by rewrite lookup_empty in Hk.
  - intros rel Hin.
    destruct (foldl_set_found_elem defaults pinned rel Hin)
      as (rel' & Hk & Hin' & Hid).
    exists rel'. split; [|done]. apply elem_of_range. eauto.
  - intros rel Hin Huniq. apply elem_of_range. exists (identity rel).
    by apply foldl_set_found_unique.
  - intros rel Hin.
    destruct (foldl_set_found_elem ∅ (default_candidates pm) rel Hin)
      as (rel' & Hk & _ & Hid).
    destruct (foundTools !! identity rel) as [rel''|] eqn:Hfound.
    + exists rel''. split; [apply elem_of_range; eauto|].
      by apply foldl_set_found_inv in Hfound as [[_ ?]|[Hold _]];
        [|fold defaults in Hk; congruence].
    + apply eq_None_not_Some in Hfound. destruct Hfound.
      destruct (decide (Forall (λ r, identity r ≠ identity rel) pinned))
        as [Hall|Hex].
      * exists rel'. unfold foundTools. by rewrite foldl_set_found_ne.
      * apply not_Forall_Exists, Exists_exists in Hex as (r & Hr & Hid'); [|apply _].
        apply dec_stable in Hid'.
        destruct (foldl_set_found_elem defaults pinned r Hr) as (r' & Hk' & _).
        exists r'. by rewrite <- Hid'.
  - intros rel Hin Hall Huniq. apply elem_of_range. exists (identity rel).
    unfold foundTools. rewrite foldl_set_found_ne by done.
    by apply foldl_set_found_unique.
Qed.

(** C2 (as amended): when some dependency declared by the platform names a
    package, a tool or a version that the registry does not hold, the
    call returns nil for the list and the error "tool release not found:"
    followed by the first such dependency.  The installed flag of the
    release named plays no part. *)
Theorem FindToolsRequiredForBoard_unresolved
    (pm : PackageManager) (board : Board) :
  Exists (λ dep, resolve_dependency pm dep = None)
         (Dependencies (Board_PlatformRelease board)) →
  ∃ before dep after,
    Dependencies (Board_PlatformRelease board) = (before ++ dep :: after)%list ∧
    Forall (λ d, is_Some (resolve_dependency pm d)) before ∧
    resolve_dependency pm dep = None ∧
    FindToolsRequiredForBoard pm board
      = Returns (None, Some ("tool release not found: "
                             +:+ ToolDependency_String dep)).
Proof.
  intros Hex.
  destruct (required_tools_unresolved pm _ (default_tools pm) Hex)
    as (before & dep & after & Hdeps & Hbefore & Hdep & Hres).
  exists before, dep, after. repeat (split; [done|]).
  unfold FindToolsRequiredForBoard. by rewrite Hres.
Qed.

(** C10: when FindToolsRequiredForBoard succeeds, the identities
    "packager:tool" of the releases of the list are pairwise distinct, and
    so are the tools they belong to. *)
Theorem FindToolsRequiredForBoard_NoDup
    (pm : PackageManager) (board : Board) (requiredTools : list ToolRelease) :
  FindToolsRequiredForBoard pm board = Returns (Some requiredTools, None) →
  NoDup (identity <$> requiredTools) ∧
  NoDup (ToolRelease_Tool <$> requiredTools).
Proof.
  unfold FindToolsRequiredForBoard. intros Hres.
  destruct (required_tools _ _ _) as [[foundTools|err]|msg] eqn:Hfound;
    simpl in Hres; [|done..].
  injection Hres as <-.
  assert (map_Forall (λ k r, identity r = k) foundTools) as Hkeys.
  { destruct (mapM (resolve_dependency pm)
                   (Dependencies (Board_PlatformRelease board)))
      as [pinned|] eqn:Hpinned.
    - rewrite (required_tools_resolved _ _ _ _ Hpinned) in Hfound.
      injection Hfound as <-. rewrite default_tools_candidates.
      apply foldl_set_found_keys, foldl_set_found_keys.
      intros k r Hk. by rewrite lookup_empty in Hk.
    - apply mapM_None_1 in Hpinned.
      destruct (required_tools_unresolved pm _ (default_tools pm) Hpinned)
        as (? & ? & ? & _ & _ & _ & Hres).
      congruence. }
  assert (NoDup (identity <$> range foundTools)) as Hnodup.
  { replace (identity <$> range foundTools) with ((range_entries foundTools).*1).
    - apply NoDup_fst_range_entries.
    - unfold range. rewrite <- list_fmap_compose.
      apply Forall_fmap_ext, Forall_forall.
      intros [k r] Hkr%elem_of_range_entries. simpl. symmetry. by apply Hkeys. }
  split; [done|].
  apply (NoDup_fmap_1 ToolRef_String). by rewrite <- list_fmap_compose.
Qed.

End properties.

(** ** Registry life cycle and event handlers *)

(** C8 (as amended): registering a handler on a manager that has one
    panics with the message of the source; nothing is returned to the
    caller.  On a manager without handler the registration stores the
    handler and leaves the packages alone, and the query then returns
    exactly that handler. *)
Theorem RegisterEventHandler_once (pm : PackageManager) (handler : EventHandler) :
  (∀ registered,
     eventHandler pm = Some registered →
     RegisterEventHandler pm (Some handler)
       = Panics "Don't try to register another event handler to the PackageManager yet!") ∧
  (eventHandler pm = None →
   ∃ pm',
     RegisterEventHandler pm (Some handler) = Returns pm' ∧
     packages pm' = packages pm ∧
     GetEventHandlers pm' = [Some handler]).
Proof.
  unfold RegisterEventHandler. split.
  - by intros registered ->.
  - intros ->. by eexists.
Qed.

(** C8 as it is written is false: the second registration ends in a
    panic, not in an error returned to the caller. *)
Lemma RegisterEventHandler_twice_panics :
  RegisterEventHandler NewPackageManager (Some progress_bar)
    = Returns {| packages := NewPackages; eventHandler := Some progress_bar |} ∧
  RegisterEventHandler {| packages := NewPackages; eventHandler := Some progress_bar |}
                       (Some progress_log)
    = Panics "Don't try to register another event handler to the PackageManager yet!".
Proof. by split. Qed.

(** C9 (as amended): [Clear] is total, empties the collection of packages
    as [NewPackageManager] does, and keeps the event handler; the
    manager equals a new one exactly when it had no handler. *)
Theorem Clear_packages (pm : PackageManager) :
  packages (Clear pm) = packages NewPackageManager ∧
  eventHandler (Clear pm) = eventHandler pm ∧
  (Clear pm = NewPackageManager ↔ eventHandler pm = None).
Proof.
  repeat split.
  - intros Heq. by apply (f_equal eventHandler) in Heq.
  - intros Hnone. unfold Clear, NewPackageManager. by rewrite Hnone.
Qed.

(** C9 as it is written is false: a registered handler outlives
    [Clear]. *)
Lemma Clear_keeps_eventHandler :
  eventHandler (Clear sample_pm) = Some progress_bar ∧
  eventHandler NewPackageManager = None ∧
  Clear sample_pm ≠ NewPackageManager.
Proof. by repeat split. Qed.

(** The slice of [GetEventHandlers] always has one element. *)
Lemma GetEventHandlers_length pm : List.length (GetEventHandlers pm) = 1.
Proof. done. Qed.

(** ** The examples *)

(** The sample registry, visited in the order of the library, with
    versions compared as texts. *)
Section examples.
#[local] Existing Instance map_order.
#[local] Existing Instance lexicographic.

Example sample_pm_wf : registry_wf sample_pm.
Proof. by_computation. Qed.

Example FindBoardWithFQBN_uno :
  FindBoardWithFQBN sample_pm "arduino:avr:uno" = (Some uno, None) ∧
  FindBoardWithFQBN sample_pm "arduino:avr:uno:cpu=atmega328" = (Some uno, None).
Proof. by vm_compute. Qed.

Example FindToolsRequiredForBoard_uno :
  FindToolsRequiredForBoard sample_pm uno
    = Returns (Some [avr_gcc_4; avrdude_6], None).
Proof. by vm_compute. Qed.

Example default_candidates_sample :
  default_candidates sample_pm = [avr_gcc_7; avrdude_6].
Proof. by vm_compute. Qed.

(** C2 as it is written is false: the platform of [zero] requires a
    release that is not installed, and the call succeeds with it. *)
Lemma FindToolsRequiredForBoard_not_installed :
  Dependencies (Board_PlatformRelease zero) = [pin "bossac" "1.7.0"] ∧
  resolve_dependency sample_pm (pin "bossac" "1.7.0") = Some bossac_1 ∧
  ToolRelease_IsInstalled bossac_1 = false ∧
  FindToolsRequiredForBoard sample_pm zero
    = Returns (Some [avr_gcc_7; avrdude_6; bossac_1], None).
Proof. by vm_compute. Qed.

Example FindToolsRequiredForBoard_due :
  FindToolsRequiredForBoard sample_pm due
    = Returns (None, Some "tool release not found: arduino:bossac@1.9.9").
Proof. by vm_compute. Qed.

(** C4 as it is written, with "non-empty" pieces, is false: "a::b" has an
    empty piece and yet is searched for. *)
Lemma FindBoardWithFQBN_empty_piece :
  Split "a::b" ":" = ["a"; ""; "b"] ∧
  FindBoardWithFQBN NewPackageManager "a::b"
    = (None, Some (errors_New "board not found")) ∧
  FindBoardWithFQBN NewPackageManager "a::b"
    ≠ (None, Some (errors_New "incorrect format for fqbn")).
Proof. by vm_compute. Qed.

Example FindBoardWithFQBN_pieces :
  FindBoardWithFQBN NewPackageManager "a"
    = (None, Some (errors_New "incorrect format for fqbn")) ∧
  FindBoardWithFQBN NewPackageManager "a:b"
    = (None, Some (errors_New "incorrect format for fqbn")) ∧
  FindBoardWithFQBN NewPackageManager "a:b:c:d:e"
    = (None, Some (errors_New "incorrect format for fqbn")) ∧
  FindBoardWithFQBN NewPackageManager ""
    = (None, Some (errors_New "incorrect format for fqbn")).
Proof. by vm_compute. Qed.

(** C3 as it is written is false: the sample registry has no package
    "missing", and the error is "board not found", which does not name
    the package. *)
Lemma FindBoardWithFQBN_missing_package :
  Packages_ (packages sample_pm) !! "missing" = None ∧
  FindBoardWithFQBN sample_pm "missing:avr:uno"
    = (None, Some (errors_New "board not found")) ∧
  ¬ Contains (errors_New "board not found") "missing".
Proof.
  split; [by vm_compute|]. split; [by vm_compute|].
  intros (before & after & Heq). unfold errors_New in Heq.
  repeat (destruct before as [|? before]; simpl in Heq;
          [discriminate Heq|injection Heq as _ Heq]).
  destruct before; discriminate Heq.
Qed.

(** The theorems at work on the sample registry. *)

Lemma FindToolsRequiredForBoard_overlay_uno :
  ∃ requiredTools,
    FindToolsRequiredForBoard sample_pm uno
      = Returns (Some requiredTools, None) ∧
    avr_gcc_4 ∈ requiredTools ∧ avrdude_6 ∈ requiredTools ∧
    avr_gcc_7 ∉ requiredTools.
Proof.
  assert (mapM (resolve_dependency sample_pm)
               (Dependencies (Board_PlatformRelease uno)) = Some [avr_gcc_4])
    as Hresolved by (vm_compute; reflexivity).
  destruct (FindToolsRequiredForBoard_overlay sample_pm uno
              [avr_gcc_4] Hresolved)
    as (requiredTools & Hres & Hfrom & _ & Hpinned & _ & Hdefault).
  exists requiredTools. split; [exact Hres|]. split; [|split].
  - apply Hpinned; [left|]. by intros r Hr%list_elem_of_singleton _.
  - apply Hdefault; rewrite ?default_candidates_sample.
    + right. left.
    + by repeat constructor.
    + intros r Hr Hid.
      apply elem_of_cons in Hr as [Hr|Hr%list_elem_of_singleton]; subst r;
        [|done].
      vm_compute in Hid. discriminate Hid.
  - intros Hin. apply Hfrom in Hin as [Hin%list_elem_of_singleton|[_ Hno]].
    + vm_compute in Hin. discriminate Hin.
    + apply Forall_inv in Hno. by apply Hno.
Defined.

Lemma FindToolsRequiredForBoard_unresolved_due :
  ∃ before dep after,
    Dependencies (Board_PlatformRelease due) = (before ++ dep :: after)%list ∧
    Forall (λ d, is_Some (resolve_dependency sample_pm d)) before ∧
    resolve_dependency sample_pm dep = None ∧
    FindToolsRequiredForBoard sample_pm due
      = Returns (None, Some ("tool release not found: "
                             +:+ ToolDependency_String dep)).
Proof.
  apply (FindToolsRequiredForBoard_unresolved sample_pm due).
  apply Exists_cons. right. apply Exists_cons. left. vm_compute. reflexivity.
Defined.

Lemma FindBoardWithFQBN_package_absent_esp32 :
  FindBoardWithFQBN sample_pm "esp32:avr:uno"
    = (None, Some (errors_New "board not found")).
Proof.
  apply (FindBoardWithFQBN_package_absent sample_pm _ "esp32" "avr" "uno" []).
  - reflexivity.
  - simpl. lia.
  - by_computation.
Defined.

Lemma FindBoardWithFQBN_platform_not_installed_sam :
  FindBoardWithFQBN sample_pm "arduino:sam:due"
    = (None, Some (errors_New "platform not installed")) ∧
  FindBoardWithFQBN sample_pm "arduino:avr:due"
    = (None, Some (errors_New "board not found")).
Proof.
  split.
  - apply (FindBoardWithFQBN_platform_not_installed sample_pm
             "arduino" "sam" "due" arduino sam);
      [by_computation|vm_compute; reflexivity..|by_computation].
  - eapply (FindBoardWithFQBN_platform_not_installed sample_pm
              "arduino" "avr" "due" arduino avr);
      [by_computation|vm_compute; reflexivity..|by_computation].
Defined.

Lemma forwardError_propagates_esp32 :
  packageActions_Tool (PackageManager_Package sample_pm "esp32") "esptool"
    = Returns {| tool := None;
                 toolActions_forwardError := Some "package 'esp32' not found" |} ∧
  toolActions_IsInstalled {| tool := Some bossac; toolActions_forwardError := None |}
    = Returns (false, None).
Proof.
  destruct (forwardError_propagates "package 'esp32' not found")
    as (HTool & _ & _ & HIsInstalled).
  split.
  - apply HTool. vm_compute. reflexivity.
  - apply HIsInstalled. by_computation.
Defined.

Lemma chain_Get_avr_gcc :
  (ta ← packageActions_Tool (PackageManager_Package sample_pm "arduino") "avr-gcc";
   tr ← toolActions_Release ta "4.9.2";
   Returns (toolReleaseActions_Get tr)) = Returns (Some avr_gcc_4, None) ∧
  ∃ e, Contains e "missing" ∧
       (ta ← packageActions_Tool (PackageManager_Package sample_pm "missing") "avr-gcc";
        tr ← toolActions_Release ta "4.9.2";
        Returns (toolReleaseActions_Get tr)) = Returns (None, Some e).
Proof.
  destruct (chain_Get sample_pm) as [Hfound Hmissing]. split.
  - apply (Hfound "arduino" "avr-gcc" "4.9.2" arduino avr_gcc avr_gcc_4);
      vm_compute; reflexivity.
  - assert (Packages_ (packages sample_pm) !! "missing" = None) as Hnone
      by (vm_compute; reflexivity).
    destruct (Hmissing "missing" Hnone) as (e & He & _ & Hget).
    exists e. split; [exact He|]. apply Hget.
Defined.

Lemma RegisterEventHandler_once_sample :
  RegisterEventHandler sample_pm (Some progress_log)
    = Panics "Don't try to register another event handler to the PackageManager yet!" ∧
  ∃ pm', RegisterEventHandler NewPackageManager (Some progress_log) = Returns pm' ∧
         GetEventHandlers pm' = [Some progress_log].
Proof.
  split.
  - by apply (proj1 (RegisterEventHandler_once sample_pm progress_log) progress_bar).
  - destruct (proj2 (RegisterEventHandler_once NewPackageManager progress_log) eq_refl)
      as (pm' & Hreg & _ & Hget).
    by exists pm'.
Defined.

Lemma FindToolsRequiredForBoard_NoDup_uno :
  NoDup (identity <$> [avr_gcc_4; avrdude_6]) ∧
  NoDup (ToolRelease_Tool <$> [avr_gcc_4; avrdude_6]).
Proof.
  apply (FindToolsRequiredForBoard_NoDup sample_pm uno).
  by vm_compute.
Defined.

End examples.

(** * The rest of the package manager *)

Section coverage.
Context `{RO : RangeOrder} `{VO : VersionOrder}.

(** ** Loops that append *)

(** A loop that appends to its result what [f] gives for each element
    ends with the result it started from, followed by all that was
    appended. *)
Lemma foldl_append {A B : Type} (g : list B → A → list B) (f : A → list B) :
  (∀ res a, g res a = (res ++ f a)%list) →
  ∀ l acc, foldl g acc l = (acc ++ (l ≫= f))%list.
Proof.
  intros Hg l. induction l as [|a l IH]; intros acc; simpl.
  - by rewrite app_nil_r.
  - by rewrite IH, Hg, <- app_assoc.
Qed.

Lemma range_empty {V : Type} : range (∅ : gmap string V) = [].
Proof.
  unfold range.
  pose proof (range_entries_perm V ∅) as Hperm.
  rewrite map_to_list_empty in Hperm.
  apply Permutation_nil_r in Hperm. by rewrite Hperm.
Qed.

(** The boards that the two searches walk through, with the ones they
    keep. *)
Lemma installed_boards_keep (step : list Board → Board → list Board)
    (keep : Board → list Board) pm :
  (∀ res board, step res board = (res ++ keep board)%list) →
  foldl (λ res targetPackage,
    foldl (λ res targetPlatform,
      match Platform_GetInstalled targetPlatform with
      | Some platform => foldl step res (range (Boards platform))
      | None => res
      end)
    res (range (Platforms targetPackage)))
  [] (range (Packages_ (packages pm)))
  = (targetPackage ← range (Packages_ (packages pm));
     targetPlatform ← range (Platforms targetPackage);
     match Platform_GetInstalled targetPlatform with
     | Some platform => range (Boards platform) ≫= keep
     | None => []
     end).
Proof.
  intros Hstep.
  rewrite (foldl_append _ (λ targetPackage,
    targetPlatform ← range (Platforms targetPackage);
    match Platform_GetInstalled targetPlatform with
    | Some platform => range (Boards platform) ≫= keep
    | None => []
    end)); [done|].
  intros res targetPackage. apply foldl_append. intros res' targetPlatform.
  destruct (Platform_GetInstalled targetPlatform) as [platform|].
  - by apply foldl_append.
  - by rewrite app_nil_r.
Qed.

Lemma elem_of_installed_boards_keep (keep : Board → list Board) pm board :
  board ∈ (targetPackage ← range (Packages_ (packages pm));
           targetPlatform ← range (Platforms targetPackage);
           match Platform_GetInstalled targetPlatform with
           | Some platform => range (Boards platform) ≫= keep
           | None => []
           end)
  ↔ ∃ packageKey thePackage arch thePlatform platform boardKey candidate,
      Packages_ (packages pm) !! packageKey = Some thePackage ∧
      Platforms thePackage !! arch = Some thePlatform ∧
      Platform_GetInstalled thePlatform = Some platform ∧
      Boards platform !! boardKey = Some candidate ∧
      board ∈ keep candidate.
Proof.
  rewrite list_elem_of_bind. split.
  - intros (thePackage & Hin & [packageKey Hp]%elem_of_range).
    apply list_elem_of_bind in Hin
      as (thePlatform & Hin & [arch Hpl]%elem_of_range).
    destruct (Platform_GetInstalled thePlatform) as [platform|] eqn:Hinst;
      [|by apply elem_of_nil in Hin].
    apply list_elem_of_bind in Hin
      as (candidate & Hin & [boardKey Hb]%elem_of_range).
    by exists packageKey, thePackage, arch, thePlatform, platform, boardKey,
      candidate.
  - intros (packageKey & thePackage & arch & thePlatform & platform & boardKey
            & candidate & Hp & Hpl & Hinst & Hb & Hin).
    exists thePackage. split; [|apply elem_of_range; eauto].
    apply list_elem_of_bind. exists thePlatform.
    split; [|apply elem_of_range; eauto].
    rewrite Hinst. apply list_elem_of_bind. exists candidate.
    split; [done|]. apply elem_of_range. eauto.
Qed.

(** ** FindBoardsWithID and FindBoardsWithVidPid *)

(** X1: The boards found by identifier are the boards of the installed
    releases that have the identifier: none is missed, none is added, and
    the boards of a platform without installed release are not seen. *)
Theorem elem_of_FindBoardsWithID (pm : PackageManager) (id : string)
    (board : Board) :
  board ∈ FindBoardsWithID pm id ↔ BoardId board = id ∧ board_installed pm board.
Proof.
  unfold FindBoardsWithID, board_installed.
  rewrite (installed_boards_keep _
             (λ b, if decide (BoardId b = id) then [b] else []));
    [|by intros res b; case_decide; rewrite ?app_nil_r].
  rewrite elem_of_installed_boards_keep. split.
  - intros (pk & p & a & pl & rel & bk & c & Hp & Hpl & Hinst & Hb & Hin).
    case_decide as Hid; [|by apply elem_of_nil in Hin].
    apply list_elem_of_singleton in Hin as ->. split; [done|].
    by exists pk, p, a, pl, rel, bk.
  - intros [Hid (pk & p & a & pl & rel & bk & Hp & Hpl & Hinst & Hb)].
    exists pk, p, a, pl, rel, bk, board. repeat (split; [done|]).
    rewrite decide_True by done. left.
Qed.

(** X2: The boards found by usb identifiers are the boards of the installed
    releases that answer to the two identifiers; when no board does, the
    list is empty. *)
Theorem elem_of_FindBoardsWithVidPid
    (HasUsbID : Board → string → string → bool)
    (pm : PackageManager) (vid pid : string) (board : Board) :
  board ∈ FindBoardsWithVidPid HasUsbID pm vid pid
  ↔ HasUsbID board vid pid = true ∧ board_installed pm board.
Proof.
  unfold FindBoardsWithVidPid, board_installed.
  rewrite (installed_boards_keep _
             (λ b, if HasUsbID b vid pid then [b] else []));
    [|by intros res b; destruct (HasUsbID b vid pid); rewrite ?app_nil_r].
  rewrite elem_of_installed_boards_keep. split.
  - intros (pk & p & a & pl & rel & bk & c & Hp & Hpl & Hinst & Hb & Hin).
    destruct (HasUsbID c vid pid) eqn:Hid; [|by apply elem_of_nil in Hin].
    apply list_elem_of_singleton in Hin as ->. split; [done|].
    by exists pk, p, a, pl, rel, bk.
  - intros [Hid (pk & p & a & pl & rel & bk & Hp & Hpl & Hinst & Hb)].
    exists pk, p, a, pl, rel, bk, board. repeat (split; [done|]).
    rewrite Hid. left.
Qed.

(** ** GetAllInstalledToolsReleases *)

Lemma GetAllInstalledToolsReleases_bind pm :
  GetAllInstalledToolsReleases pm
  = (targetPackage ← range (Packages_ (packages pm));
     theTool ← range (Tools targetPackage);
     rel ← range (Tool_Releases theTool);
     if ToolRelease_IsInstalled rel then [rel] else []).
Proof.
  unfold GetAllInstalledToolsReleases.
  rewrite (foldl_append _ (λ targetPackage,
    theTool ← range (Tools targetPackage);
    rel ← range (Tool_Releases theTool);
    if ToolRelease_IsInstalled rel then [rel] else [])); [done|].
  intros tools targetPackage. apply foldl_append. intros tools' theTool.
  apply foldl_append. intros tools'' rel.
  by destruct (ToolRelease_IsInstalled rel); rewrite ?app_nil_r.
Qed.

(** X3: The list holds the installed releases that the registry holds, of
    every tool of every package, and no other. *)
Theorem elem_of_GetAllInstalledToolsReleases (pm : PackageManager)
    (rel : ToolRelease) :
  rel ∈ GetAllInstalledToolsReleases pm
  ↔ ToolRelease_IsInstalled rel = true ∧ release_stored pm rel.
Proof.
  rewrite GetAllInstalledToolsReleases_bind. unfold release_stored.
  rewrite list_elem_of_bind. split.
  - intros (thePackage & Hin & [packageKey Hp]%elem_of_range).
    apply list_elem_of_bind in Hin as (theTool & Hin & [toolKey Ht]%elem_of_range).
    apply list_elem_of_bind in Hin as (r & Hin & [version Hr]%elem_of_range).
    destruct (ToolRelease_IsInstalled r) eqn:Hinst; [|by apply elem_of_nil in Hin].
    apply list_elem_of_singleton in Hin as ->. split; [done|].
    by exists packageKey, thePackage, toolKey, theTool, version.
  - intros [Hinst (packageKey & thePackage & toolKey & theTool & version
                   & Hp & Ht & Hr)].
    exists thePackage. split; [|apply elem_of_range; eauto].
    apply list_elem_of_bind. exists theTool. split; [|apply elem_of_range; eauto].
    apply list_elem_of_bind. exists rel. split; [|apply elem_of_range; eauto].
    rewrite Hinst. left.
Qed.

(** ** FindBoardWithFQBN, the success path *)

Lemma Split_append (s rest : string) (sep : ascii) :
  Split (s +:+ String sep rest) sep = (Split s sep ++ Split rest sep)%list.
Proof.
  induction s as [|c s IH]; simpl.
  - by rewrite decide_True.
  - case_decide; [by rewrite IH|].
    rewrite IH. destruct (Split s sep) eqn:E; [|done].
    by apply Split_not_nil in E.
Qed.

(** The function either refuses the format or searches for the first
    three pieces. *)
Lemma FindBoardWithFQBN_cases pm fqbn :
  FindBoardWithFQBN pm fqbn
    = (None, Some (errors_New "incorrect format for fqbn")) ∨
  ∃ packageName platformArch boardID rest,
    Split fqbn ":" = packageName :: platformArch :: boardID :: rest ∧
    (List.length rest ≤ 1)%nat ∧
    FindBoardWithFQBN pm fqbn
      = FindBoardWithFQBN_search pm packageName platformArch boardID.
Proof.
  unfold FindBoardWithFQBN.
  destruct (bool_decide (List.length (Split fqbn ":") < 3)) eqn:E3; [by left|].
  destruct (bool_decide (4 < List.length (Split fqbn ":"))) eqn:E4; [by left|].
  apply bool_decide_eq_false in E3, E4.
  destruct (Split fqbn ":") as [|packageName [|platformArch [|boardID rest]]];
    simpl in *; [lia..|].
  right. exists packageName, platformArch, boardID, rest.
  split; [done|]. split; [lia|done].
Qed.

(** Where a board returned by the search comes from. *)
Lemma FindBoardWithFQBN_search_Some pm packageName platformArch boardID board :
  FindBoardWithFQBN_search pm packageName platformArch boardID
    = (Some board, None) →
  ∃ packageKey thePackage arch thePlatform platform boardKey,
    Packages_ (packages pm) !! packageKey = Some thePackage ∧
    Package_Name thePackage = packageName ∧
    Platforms thePackage !! arch = Some thePlatform ∧
    Architecture thePlatform = platformArch ∧
    Platform_GetInstalled thePlatform = Some platform ∧
    Boards platform !! boardKey = Some board ∧
    BoardId board = boardID.
Proof.
  unfold FindBoardWithFQBN_search.
  destruct (for_range _ _) as [r|] eqn:E; [|done]. intros ->.
  apply for_range_Some in E as (thePackage & [packageKey Hp]%elem_of_range & E).
  case_decide as Hname; [done|].
  apply for_range_Some in E as (thePlatform & [arch Hpl]%elem_of_range & E).
  case_decide as Harch; [done|].
  destruct (Platform_GetInstalled thePlatform) as [platform|] eqn:Hinst; [|done].
  apply for_range_Some in E as (b & [boardKey Hb]%elem_of_range & E).
  case_decide as Hid; [|done]. injection E as ->.
  by exists packageKey, thePackage, arch, thePlatform, platform, boardKey.
Qed.

(** X5: A board returned for an fqbn is a board of the registry that fits the
    fqbn: the string has 3 or 4 pieces, the first is the name of a package,
    the second the architecture of a platform of that package, the board
    belongs to the installed release of that platform and has the third
    piece for identifier.  The fourth piece plays no part. *)
Theorem FindBoardWithFQBN_found (pm : PackageManager) (fqbn : string)
    (board : Board) :
  FindBoardWithFQBN pm fqbn = (Some board, None) →
  ∃ packageKey thePackage arch thePlatform platform boardKey rest,
    Split fqbn ":"
      = Package_Name thePackage :: Architecture thePlatform
          :: BoardId board :: rest ∧
    (List.length rest ≤ 1)%nat ∧
    Packages_ (packages pm) !! packageKey = Some thePackage ∧
    Platforms thePackage !! arch = Some thePlatform ∧
    Platform_GetInstalled thePlatform = Some platform ∧
    Boards platform !! boardKey = Some board.
Proof.
  intros Hfound.
  destruct (FindBoardWithFQBN_cases pm fqbn)
    as [Herr|(packageName & platformArch & boardID & rest & Hsplit & Hrest & Heq)];
    [congruence|].
  rewrite Heq in Hfound.
  apply FindBoardWithFQBN_search_Some in Hfound
    as (packageKey & thePackage & arch & thePlatform & platform & boardKey
        & Hp & <- & Hpl & <- & Hinst & Hb & <-).
  by exists packageKey, thePackage, arch, thePlatform, platform, boardKey, rest.
Qed.


(** X7: The function returns a board or an error, never both and never
    neither, and it has three errors. *)
Theorem FindBoardWithFQBN_result (pm : PackageManager) (fqbn : string) :
  (∃ board, FindBoardWithFQBN pm fqbn = (Some board, None)) ∨
  (∃ err, FindBoardWithFQBN pm fqbn = (None, Some err) ∧
          err ∈ [errors_New "incorrect format for fqbn";
                 errors_New "platform not installed";
                 errors_New "board not found"]).
Proof.
  destruct (FindBoardWithFQBN_cases pm fqbn)
    as [->|(packageName & platformArch & boardID & rest & _ & _ & ->)].
  - right. eexists. split; [done|]. left.
  - destruct (FindBoardWithFQBN_search_cases pm packageName platformArch boardID)
      as [(board & -> & _)|[-> | ->]].
    + left. by exists board.
    + right. eexists. split; [done|]. right. left.
    + right. eexists. split; [done|]. right. right. left.
Qed.

(** X8: The menu options are not read: a fourth piece added to an fqbn of
    three pieces does not change the result. *)
Theorem FindBoardWithFQBN_menu (pm : PackageManager) (fqbn options : string) :
  List.length (Split fqbn ":") = 3 →
  count_byte options ":" = 0 →
  FindBoardWithFQBN pm (fqbn +:+ ":" +:+ options) = FindBoardWithFQBN pm fqbn.
Proof.
  intros Hlen Hoptions.
  destruct (Split fqbn ":") as [|packageName [|platformArch [|boardID [|]]]] eqn:E;
    try discriminate Hlen.
  rewrite (FindBoardWithFQBN_split pm fqbn _ _ _ [] E) by (simpl; lia).
  apply (FindBoardWithFQBN_split _ _ _ _ _ [options]); [|simpl; lia].
  change (":" +:+ options) with (String ":" options).
  by rewrite Split_append, E, Split_no_sep.
Qed.

(** X9: In a registry that files packages under their names, platforms under
    their architectures and boards under their identifiers, the board of
    an fqbn is found whenever it is there: the package, its platform, an
    installed release and the board in it. *)
Theorem FindBoardWithFQBN_complete (pm : PackageManager)
    (fqbn packageName platformArch boardID : string) (rest : list string)
    (thePackage : Package) (thePlatform : Platform)
    (platform : PlatformRelease) (board : Board) :
  registry_wf pm →
  Split fqbn ":" = packageName :: platformArch :: boardID :: rest →
  (List.length rest ≤ 1)%nat →
  Packages_ (packages pm) !! packageName = Some thePackage →
  Platforms thePackage !! platformArch = Some thePlatform →
  Platform_GetInstalled thePlatform = Some platform →
  boards_wf platform →
  Boards platform !! boardID = Some board →
  FindBoardWithFQBN pm fqbn = (Some board, None).
Proof.
  intros Hwf Hsplit Hrest Hp Hpl Hinst Hboards Hb.
  rewrite (FindBoardWithFQBN_split _ _ _ _ _ _ Hsplit Hrest).
  rewrite (FindBoardWithFQBN_search_unique _ _ _ _ _ _ Hwf Hp Hpl), Hinst.
  rewrite (for_range_unique _ _ board).
  - by rewrite decide_True by (by apply Hboards in Hb).
  - apply elem_of_range. eauto.
  - intros b [k Hk]%elem_of_range Hkeep. case_decide as Hid; [|done].
    pose proof (Hboards _ _ Hk) as Hk'. simpl in Hk'. congruence.
Qed.

(** ** The fluent chain, from end to end *)

(** X10: The chains Package(P).Tool(T).Get() and
    Package(P).Tool(T).Release(V).Get() never panic, and their result is
    decided by the first lookup that fails: the error names the package,
    or the tool and its package, or the version and its tool; with no
    failure the entity is returned without error. *)
Theorem chain_Get_cases (pm : PackageManager) (P T V : string) :
  (ta ← packageActions_Tool (PackageManager_Package pm P) T;
   Returns (toolActions_Get ta))
  = Returns
      match Packages_ (packages pm) !! P with
      | None => (None, Some ("package '" +:+ P +:+ "' not found"))
      | Some thePackage =>
          match Tools thePackage !! T with
          | None =>
              (None, Some ("tool '" +:+ T +:+ "' not found in package '"
                           +:+ Package_Name thePackage +:+ "'"))
          | Some theTool => (Some theTool, None)
          end
      end ∧
  (ta ← packageActions_Tool (PackageManager_Package pm P) T;
   tr ← toolActions_Release ta V;
   Returns (toolReleaseActions_Get tr))
  = Returns
      match Packages_ (packages pm) !! P with
      | None => (None, Some ("package '" +:+ P +:+ "' not found"))
      | Some thePackage =>
          match Tools thePackage !! T with
          | None =>
              (None, Some ("tool '" +:+ T +:+ "' not found in package '"
                           +:+ Package_Name thePackage +:+ "'"))
          | Some theTool =>
              match Tool_Releases theTool !! V with
              | None =>
                  (None, Some ("release " +:+ V +:+ " not found for tool "
                               +:+ Tool_String theTool))
              | Some rel => (Some rel, None)
              end
          end
      end.
Proof.
  unfold PackageManager_Package, packageActions_Tool.
  destruct (Packages_ (packages pm) !! P) as [thePackage|]; simpl; [|done].
  destruct (Tools thePackage !! T) as [theTool|]; simpl; [|done].
  unfold toolActions_Release, Tool_GetRelease. simpl.
  by destruct (Tool_Releases theTool !! V).
Qed.

(** X11: The handles keep their invariant, an entity or an error and not
    both: [Package] makes such a handle, and on such a handle [Tool],
    [Release] and [IsInstalled] return, without panic, [Tool] and [Release]
    giving such a handle again. *)
Theorem chain_handles_ok :
  (∀ pm name, packageActions_ok (PackageManager_Package pm name)) ∧
  (∀ pa name, packageActions_ok pa →
     ∃ ta, packageActions_Tool pa name = Returns ta ∧ toolActions_ok ta) ∧
  (∀ ta version, toolActions_ok ta →
     ∃ tr, toolActions_Release ta version = Returns tr ∧
           toolReleaseActions_ok tr) ∧
  (∀ ta, toolActions_ok ta → ∃ r, toolActions_IsInstalled ta = Returns r).
Proof.
  assert (∀ A (x : option A) (e : option error),
            (is_Some x ↔ e = None) → x = None → e = None → False) as Hneither.
  { intros A x e [_ Hok] -> ->. by destruct (Hok eq_refl). }
  assert (∀ A (x : option A) (e : option error),
            (is_Some x ↔ e = None) → is_Some x → is_Some e → False) as Hboth.
  { intros A x e [Hok _] Hx [err ->]. by apply Hok in Hx. }
  assert (∀ A (a : A), is_Some (Some a) ↔ (None : option error) = None)
    as Hentity by (intros; split; [done|by eexists]).
  assert (∀ A (err : error), is_Some (None : option A) ↔ Some err = None)
    as Herror by (intros; split; [by intros [? ?]|done]).
  split; [|split; [|split]].
  - intros pm name. unfold packageActions_ok, PackageManager_Package. simpl.
    destruct (Packages_ (packages pm) !! name); [apply Hentity|apply Herror].
  - intros [[thePackage|] [err|]] name Hok; unfold packageActions_ok in Hok;
      simpl in Hok.
    + by destruct (Hboth _ _ _ Hok).
    + unfold packageActions_Tool. simpl. eexists. split; [done|].
      unfold toolActions_ok. simpl.
      destruct (Tools thePackage !! name); [apply Hentity|apply Herror].
    + unfold packageActions_Tool. simpl. eexists. split; [done|].
      apply Herror.
    + by destruct (Hneither _ _ _ Hok).
  - intros [[theTool|] [err|]] version Hok; unfold toolActions_ok in Hok;
      simpl in Hok.
    + by destruct (Hboth _ _ _ Hok).
    + unfold toolActions_Release, Tool_GetRelease. simpl.
      destruct (Tool_Releases theTool !! version); eexists; (split; [done|]);
        [apply Hentity|apply Herror].
    + unfold toolActions_Release. simpl. eexists. split; [done|].
      apply Herror.
    + by destruct (Hneither _ _ _ Hok).
  - intros [[theTool|] [err|]] Hok; unfold toolActions_ok in Hok; simpl in Hok.
    + by destruct (Hboth _ _ _ Hok).
    + unfold toolActions_IsInstalled. simpl. destruct (for_range _ _); by eexists.
    + by eexists.
    + by destruct (Hneither _ _ _ Hok).
Qed.

(** X12: Package(P).Tool(T).IsInstalled() answers (true, nil) exactly when the
    registry holds the package, the tool, and an installed release of the
    tool. *)
Theorem IsInstalled_true (pm : PackageManager) (P T : string) :
  (ta ← packageActions_Tool (PackageManager_Package pm P) T;
   toolActions_IsInstalled ta) = Returns (true, None)
  ↔ ∃ thePackage theTool version rel,
      Packages_ (packages pm) !! P = Some thePackage ∧
      Tools thePackage !! T = Some theTool ∧
      Tool_Releases theTool !! version = Some rel ∧
      ToolRelease_IsInstalled rel = true.
Proof.
  unfold PackageManager_Package, packageActions_Tool, toolActions_IsInstalled.
  destruct (Packages_ (packages pm) !! P) as [thePackage|] eqn:Hp; simpl.
  - destruct (Tools thePackage !! T) as [theTool|] eqn:Ht; simpl.
    + destruct (for_range _ _) as [r|] eqn:E.
      * apply for_range_Some in E as (rel & [version Hr]%elem_of_range & E).
        destruct (ToolRelease_IsInstalled rel) eqn:Hinst; [|done].
        injection E as <-. split; [|done]. intros _.
        by exists thePackage, theTool, version, rel.
      * split; [done|].
        intros (p' & t' & version & rel & Hp' & Ht' & Hr & Hinst).
        injection Hp' as <-. rewrite Ht in Ht'. injection Ht' as <-.
        apply for_range_None in E.
        assert (rel ∈ range (Tool_Releases theTool)) as Hin
          by (apply elem_of_range; eauto).
        apply (proj1 (Forall_forall _ _) E) in Hin. simpl in Hin.
        by rewrite Hinst in Hin.
    + split; [done|]. intros (p' & t' & ? & ? & Hp' & Ht' & _).
      injection Hp' as <-. congruence.
  - split; [done|]. by intros (? & ? & ? & ? & ? & _).
Qed.

(** ** FindToolsRequiredForBoard, further *)

(** What a successful call has done. *)
Lemma FindToolsRequiredForBoard_success pm board requiredTools :
  FindToolsRequiredForBoard pm board = Returns (Some requiredTools, None) →
  ∃ pinned,
    Forall2 (λ dep rel, resolve_dependency pm dep = Some rel)
            (Dependencies (Board_PlatformRelease board)) pinned ∧
    requiredTools
      = range (foldl set_found (foldl set_found ∅ (default_candidates pm)) pinned).
Proof.
  unfold FindToolsRequiredForBoard. intros Hres.
  destruct (mapM (resolve_dependency pm)
                 (Dependencies (Board_PlatformRelease board)))
    as [pinned|] eqn:Hpinned.
  - rewrite (required_tools_resolved _ _ _ _ Hpinned) in Hres. simpl in Hres.
    injection Hres as <-. exists pinned. split; [by apply mapM_Some_1|].
    by rewrite default_tools_candidates.
  - apply mapM_None_1 in Hpinned.
    destruct (required_tools_unresolved pm _ (default_tools pm) Hpinned)
      as (? & ? & ? & _ & _ & _ & Herr).
    by rewrite Herr in Hres.
Qed.

Lemma resolve_dependency_stored pm dep rel :
  resolve_dependency pm dep = Some rel → release_stored pm rel.
Proof.
  unfold resolve_dependency, release_stored. intros Hres.
  destruct (Packages_ (packages pm) !! ToolPackager dep) as [thePackage|] eqn:Hp;
    [|done].
  simpl in Hres.
  destruct (Tools thePackage !! ToolName dep) as [theTool|] eqn:Ht; [|done].
  simpl in Hres. by exists (ToolPackager dep), thePackage, (ToolName dep), theTool,
    (ToolVersion dep).
Qed.

Lemma foldl_set_found_is_Some (found : gmap string ToolRelease) rels k :
  is_Some (found !! k) → is_Some (foldl set_found found rels !! k).
Proof.
  intros Hk. induction rels as [|r rels IH] using rev_ind; [done|].
  rewrite foldl_set_found_snoc. destruct (decide (identity r = k)) as [<-|Hne].
  - rewrite lookup_insert_eq. by eexists.
  - by rewrite lookup_insert_ne.
Qed.

(** X13: The call returns a list or an error, never both, never neither, and
    never panics; it returns a list exactly when every declared dependency
    names a release that the registry holds. *)
Theorem FindToolsRequiredForBoard_result (pm : PackageManager) (board : Board) :
  (Forall (λ dep, is_Some (resolve_dependency pm dep))
          (Dependencies (Board_PlatformRelease board)) ∧
   ∃ requiredTools,
     FindToolsRequiredForBoard pm board = Returns (Some requiredTools, None)) ∨
  (Exists (λ dep, resolve_dependency pm dep = None)
          (Dependencies (Board_PlatformRelease board)) ∧
   ∃ err, FindToolsRequiredForBoard pm board = Returns (None, Some err)).
Proof.
  unfold FindToolsRequiredForBoard.
  destruct (mapM (resolve_dependency pm)
                 (Dependencies (Board_PlatformRelease board)))
    as [pinned|] eqn:Hpinned.
  - left. split.
    + apply (mapM_is_Some_1 (resolve_dependency pm)). by rewrite Hpinned.
    + rewrite (required_tools_resolved _ _ _ _ Hpinned). by eexists.
  - right. apply mapM_None_1 in Hpinned. split; [done|].
    destruct (required_tools_unresolved pm _ (default_tools pm) Hpinned)
      as (? & ? & ? & _ & _ & _ & ->).
    by eexists.
Qed.

(** X14: Every release returned is held by the registry, and it is named by a
    declared dependency or installed: a release that is not installed is
    never returned unless a dependency names it. *)
Theorem FindToolsRequiredForBoard_provenance (pm : PackageManager)
    (board : Board) (requiredTools : list ToolRelease) (rel : ToolRelease) :
  FindToolsRequiredForBoard pm board = Returns (Some requiredTools, None) →
  rel ∈ requiredTools →
  release_stored pm rel ∧
  ((∃ dep, dep ∈ Dependencies (Board_PlatformRelease board) ∧
           resolve_dependency pm dep = Some rel) ∨
   rel ∈ GetAllInstalledToolsReleases pm).
Proof.
  intros (pinned & Hpinned & ->)%FindToolsRequiredForBoard_success
         [k Hk]%elem_of_range.
  apply foldl_set_found_inv in Hk as [[Hin _]|[Hk _]].
  - apply list_elem_of_lookup in Hin as [i Hi].
    destruct (Forall2_lookup_r _ _ _ _ _ Hpinned Hi) as (dep & Hdep & Hres).
    split; [by eapply resolve_dependency_stored|].
    left. exists dep. split; [|done]. apply list_elem_of_lookup. eauto.
  - apply foldl_set_found_inv in Hk as [[Hin _]|[Hk _]];
      [|by rewrite lookup_empty in Hk].
    apply elem_of_default_candidates in Hin
      as (thePackage & theTool & [packageKey Hp]%elem_of_range
          & [toolKey Ht]%elem_of_range & Hlatest).
    apply Tool_GetLatestInstalled_Some in Hlatest
      as [[version Hr]%elem_of_range Hinst].
    split; [by exists packageKey, thePackage, toolKey, theTool, version|].
    right. rewrite GetAllInstalledToolsReleases_bind.
    apply list_elem_of_bind. exists thePackage.
    split; [|apply elem_of_range; eauto].
    apply list_elem_of_bind. exists theTool.
    split; [|apply elem_of_range; eauto].
    apply list_elem_of_bind. exists rel.
    split; [|apply elem_of_range; eauto].
    rewrite Hinst. left.
Qed.

(** X15: Among the declared dependencies on one tool the last one wins: the
    release named by a dependency is returned when no later dependency
    names a release of the same identity. *)
Theorem FindToolsRequiredForBoard_last_pin (pm : PackageManager) (board : Board)
    (before after : list ToolDependency) (dep : ToolDependency)
    (rel : ToolRelease) :
  Dependencies (Board_PlatformRelease board) = (before ++ dep :: after)%list →
  Forall (λ d, is_Some (resolve_dependency pm d))
         (Dependencies (Board_PlatformRelease board)) →
  resolve_dependency pm dep = Some rel →
  Forall (λ d, ∀ r, resolve_dependency pm d = Some r → identity r ≠ identity rel)
         after →
  ∃ requiredTools,
    FindToolsRequiredForBoard pm board = Returns (Some requiredTools, None) ∧
    rel ∈ requiredTools.
Proof.
  intros Hdeps [pinned Hpinned]%(mapM_is_Some_2 (resolve_dependency pm)) Hdep Hafter.
  unfold FindToolsRequiredForBoard.
  rewrite (required_tools_resolved _ _ _ _ Hpinned). simpl.
  eexists. split; [done|].
  apply mapM_Some_1 in Hpinned. rewrite Hdeps in Hpinned.
  apply Forall2_app_inv_l in Hpinned as (pinned1 & pinned2 & _ & Hrest & ->).
  apply Forall2_cons_inv_l in Hrest as (rel' & pinned3 & Hrel' & Hlater & ->).
  assert (rel' = rel) as -> by congruence.
  apply elem_of_range. exists (identity rel).
  rewrite foldl_app. simpl. rewrite foldl_set_found_ne.
  - apply lookup_insert_eq.
  - by apply (Forall2_Forall_r _ _ _ _ Hlater).
Qed.

(** X16: A tool with an installed release is never left out: when the
    releases of the registry point back to the tool that holds them, a
    successful call returns, for every tool that has an installed
    release, a release of the identity of that tool. *)
Theorem FindToolsRequiredForBoard_installed_tool (pm : PackageManager)
    (board : Board) (requiredTools : list ToolRelease) (P T version : string)
    (thePackage : Package) (theTool : Tool) (installed : ToolRelease) :
  tools_wf pm →
  Packages_ (packages pm) !! P = Some thePackage →
  Tools thePackage !! T = Some theTool →
  Tool_Releases theTool !! version = Some installed →
  ToolRelease_IsInstalled installed = true →
  FindToolsRequiredForBoard pm board = Returns (Some requiredTools, None) →
  ∃ rel, rel ∈ requiredTools ∧ identity rel = P +:+ ":" +:+ T.
Proof.
  intros Hwf Hp Ht Hr Hinst
         (pinned & _ & ->)%FindToolsRequiredForBoard_success.
  destruct (Tool_GetLatestInstalled theTool) as [latest|] eqn:Hlatest.
  - assert (identity latest = P +:+ ":" +:+ T) as Hid.
    { apply Tool_GetLatestInstalled_Some in Hlatest as [[v Hv]%elem_of_range _].
      unfold identity. by rewrite (Hwf _ _ Hp _ _ Ht _ _ Hv). }
    assert (latest ∈ default_candidates pm) as Hin.
    { apply elem_of_default_candidates. exists thePackage, theTool.
      split; [apply elem_of_range; eauto|].
      split; [apply elem_of_range; eauto|done]. }
    destruct (foldl_set_found_elem ∅ _ _ Hin) as (rel' & Hk & _ & _).
    rewrite Hid in Hk.
    destruct (foldl_set_found_is_Some _ pinned _ (mk_is_Some _ _ Hk))
      as [rel Hrel].
    exists rel. split; [apply elem_of_range; eauto|].
    apply (foldl_set_found_keys _ pinned) in Hrel; [done|].
    apply foldl_set_found_keys. intros k r Hkr. by rewrite lookup_empty in Hkr.
  - apply Tool_GetLatestInstalled_None in Hlatest.
    apply Hlatest in Hr. simpl in Hr. congruence.
Qed.

Lemma required_tools_cons pm dep deps found :
  required_tools pm (dep :: deps) found
  = (tool ← FindToolDependency pm dep;
     match tool with
     | None =>
         Returns (inr ("tool release not found: " +:+ ToolDependency_String dep))
     | Some tool => required_tools pm deps (set_found found tool)
     end).
Proof. reflexivity. Qed.

Lemma required_tools_error pm deps found found' err :
  required_tools pm deps found = Returns (inr err) →
  required_tools pm deps found' = Returns (inr err).
Proof.
  revert found found'. induction deps as [|dep deps IH]; intros found found';
    [done|].
  rewrite !required_tools_cons, FindToolDependency_resolve. simpl.
  destruct (resolve_dependency pm dep); [apply IH|done].
Qed.

(** ** Clear, and what follows it *)

(** X18: After [Clear] every search comes back empty: no board by identifier,
    by usb identifiers or by fqbn, no installed release, no dependency
    resolved; the tools required for a board are none when its platform
    declares none, and the first declared dependency is reported missing
    otherwise. *)
Theorem Clear_finds_nothing (pm : PackageManager) :
  (∀ id, FindBoardsWithID (Clear pm) id = []) ∧
  (∀ HasUsbID vid pid, FindBoardsWithVidPid HasUsbID (Clear pm) vid pid = []) ∧
  GetAllInstalledToolsReleases (Clear pm) = [] ∧
  (∀ fqbn board, FindBoardWithFQBN (Clear pm) fqbn ≠ (Some board, None)) ∧
  (∀ dep, FindToolDependency (Clear pm) dep = Returns None) ∧
  (∀ board,
     FindToolsRequiredForBoard (Clear pm) board
     = Returns match Dependencies (Board_PlatformRelease board) with
               | [] => (Some [], None)
               | dep :: _ =>
                   (None, Some ("tool release not found: "
                                +:+ ToolDependency_String dep))
               end).
Proof.
  assert (∀ dep, resolve_dependency (Clear pm) dep = None) as Hnone.
  { intros dep. unfold resolve_dependency. simpl. by rewrite lookup_empty. }
  split; [|split; [|split; [|split; [|split]]]].
  - intros id. unfold FindBoardsWithID. simpl. by rewrite range_empty.
  - intros HasUsbID vid pid. unfold FindBoardsWithVidPid. simpl.
    by rewrite range_empty.
  - unfold GetAllInstalledToolsReleases. simpl. by rewrite range_empty.
  - intros fqbn board Hfound.
    destruct (FindBoardWithFQBN_cases (Clear pm) fqbn)
      as [Herr|(packageName & platformArch & boardID & rest & _ & _ & Heq)];
      [congruence|].
    rewrite Heq, FindBoardWithFQBN_search_no_package in Hfound; [done|].
    simpl. rewrite range_empty. constructor.
  - intros dep. by rewrite FindToolDependency_resolve, Hnone.
  - intros board.
    assert (default_tools (Clear pm) = ∅) as Hdefault.
    { unfold default_tools. simpl. by rewrite range_empty. }
    unfold FindToolsRequiredForBoard. rewrite Hdefault.
    destruct (Dependencies (Board_PlatformRelease board)) as [|dep deps].
    + simpl. by rewrite range_empty.
    + by rewrite required_tools_cons, FindToolDependency_resolve, Hnone.
Qed.

(** X19: [Clear] does not make room for another event handler: once a handler
    is registered, registering after [Clear] panics as before, and the
    handler is still the one returned. *)
Theorem RegisterEventHandler_after_Clear (pm pm' : PackageManager)
    (handler : EventHandler) (other : option EventHandler) :
  RegisterEventHandler pm (Some handler) = Returns pm' →
  RegisterEventHandler (Clear pm') other
    = Panics "Don't try to register another event handler to the PackageManager yet!" ∧
  GetEventHandlers (Clear pm') = [Some handler].
Proof.
  unfold RegisterEventHandler. destruct (eventHandler pm); [done|].
  by intros [= <-].
Qed.

End coverage.

(** ** The order of the maps *)

Section order.
Context (RO RO' : RangeOrder) (VO VO' : VersionOrder).

Lemma bind_Permutation {A B : Type} (f g : A → list B) (l k : list A) :
  l ≡ₚ k → (∀ a, f a ≡ₚ g a) → l ≫= f ≡ₚ k ≫= g.
Proof.
  intros Hlk Hfg. transitivity (l ≫= g).
  - clear Hlk. induction l as [|a l IH]; [done|].
    simpl. by rewrite IH, (Hfg a).
  - by rewrite Hlk.
Qed.

Lemma range_Permutation {V : Type} (m : gmap string V) :
  @range RO V m ≡ₚ @range RO' V m.
Proof.
  unfold range.
  by rewrite (@range_entries_perm RO), (@range_entries_perm RO').
Qed.

(** X4: The order in which Go visits the maps shows in the order of the list
    only: under any two orders [GetAllInstalledToolsReleases] returns the
    same releases, each as many times. *)
Theorem GetAllInstalledToolsReleases_order (pm : PackageManager) :
  @GetAllInstalledToolsReleases RO pm ≡ₚ @GetAllInstalledToolsReleases RO' pm.
Proof.
  rewrite (@GetAllInstalledToolsReleases_bind RO).
  rewrite (@GetAllInstalledToolsReleases_bind RO').
  apply bind_Permutation; [apply range_Permutation|]. intros thePackage.
  apply bind_Permutation; [apply range_Permutation|]. intros theTool.
  apply bind_Permutation; [apply range_Permutation|done].
Qed.

(** X17: Whether the call fails, and with which error, depends on the declared
    dependencies and on what the registry holds only: not on the order in
    which the maps are visited, and not on the order of the versions. *)
Theorem FindToolsRequiredForBoard_error_order (pm : PackageManager)
    (board : Board) (err : error) :
  @FindToolsRequiredForBoard RO VO pm board = Returns (None, Some err) →
  @FindToolsRequiredForBoard RO' VO' pm board = Returns (None, Some err).
Proof.
  unfold FindToolsRequiredForBoard. intros Hres.
  destruct (required_tools pm _ (@default_tools RO VO pm))
    as [[foundTools|err']|msg] eqn:Hfound; simpl in Hres; [done| |done].
  injection Hres as ->.
  by rewrite (required_tools_error _ _ _ (@default_tools RO' VO' pm) _ Hfound).
Qed.

End order.

(** ** The rest of the package manager on the sample registry *)

Section coverage_examples.
#[local] Existing Instance map_order.
#[local] Existing Instance lexicographic.

Example FindBoardsWithID_sample :
  FindBoardsWithID sample_pm "uno" = [uno] ∧
  FindBoardsWithID sample_pm "due" = [] ∧
  FindBoardsWithVidPid sample_HasUsbID sample_pm "0x2341" "0x0043" = [uno] ∧
  FindBoardsWithVidPid sample_HasUsbID sample_pm "0x2341" "0x0001" = [] ∧
  GetAllInstalledToolsReleases sample_pm = [avr_gcc_7; avr_gcc_4; avrdude_6].
Proof. by vm_compute. Qed.

Example sample_pm_tools_wf : tools_wf sample_pm.
Proof. by_computation. Qed.

Lemma FindBoardWithFQBN_found_uno :
  ∃ packageKey thePackage arch thePlatform platform boardKey rest,
    Split "arduino:avr:uno:cpu=atmega328" ":"
      = Package_Name thePackage :: Architecture thePlatform
          :: BoardId uno :: rest ∧
    (List.length rest ≤ 1)%nat ∧
    Packages_ (packages sample_pm) !! packageKey = Some thePackage ∧
    Platforms thePackage !! arch = Some thePlatform ∧
    Platform_GetInstalled thePlatform = Some platform ∧
    Boards platform !! boardKey = Some uno.
Proof.
  apply (FindBoardWithFQBN_found sample_pm "arduino:avr:uno:cpu=atmega328" uno).
  vm_compute. reflexivity.
Defined.


Lemma FindBoardWithFQBN_menu_uno :
  FindBoardWithFQBN sample_pm "arduino:avr:uno:cpu=atmega328"
    = FindBoardWithFQBN sample_pm "arduino:avr:uno".
Proof.
  apply (FindBoardWithFQBN_menu sample_pm "arduino:avr:uno" "cpu=atmega328");
    vm_compute; reflexivity.
Defined.

Lemma FindBoardWithFQBN_complete_uno :
  FindBoardWithFQBN sample_pm "arduino:avr:uno:cpu=atmega328" = (Some uno, None).
Proof.
  eapply (FindBoardWithFQBN_complete sample_pm _ "arduino" "avr" "uno"
            ["cpu=atmega328"] arduino avr).
  - by_computation.
  - vm_compute. reflexivity.
  - simpl. lia.
  - vm_compute. reflexivity.
  - vm_compute. reflexivity.
  - vm_compute. reflexivity.
  - by_computation.
  - vm_compute. reflexivity.
Defined.

Lemma FindToolsRequiredForBoard_provenance_zero :
  release_stored sample_pm bossac_1 ∧
  ((∃ dep, dep ∈ Dependencies (Board_PlatformRelease zero) ∧
           resolve_dependency sample_pm dep = Some bossac_1) ∨
   bossac_1 ∈ GetAllInstalledToolsReleases sample_pm).
Proof.
  apply (FindToolsRequiredForBoard_provenance sample_pm zero
           [avr_gcc_7; avrdude_6; bossac_1]).
  - vm_compute. reflexivity.
  - right. right. left.
Defined.

Lemma FindToolsRequiredForBoard_last_pin_mega :
  ∃ requiredTools,
    FindToolsRequiredForBoard sample_pm mega = Returns (Some requiredTools, None) ∧
    avr_gcc_4 ∈ requiredTools.
Proof.
  apply (FindToolsRequiredForBoard_last_pin sample_pm mega
           [pin "avr-gcc" "7.3.0"] [] (pin "avr-gcc" "4.9.2")).
  - reflexivity.
  - repeat constructor; vm_compute; by eexists.
  - vm_compute. reflexivity.
  - constructor.
Defined.

Lemma FindToolsRequiredForBoard_installed_tool_avrdude :
  ∃ rel, rel ∈ [avr_gcc_4; avrdude_6] ∧ identity rel = "arduino:avrdude".
Proof.
  apply (FindToolsRequiredForBoard_installed_tool sample_pm uno
           [avr_gcc_4; avrdude_6] "arduino" "avrdude" "6.3.0"
           arduino avrdude avrdude_6).
  - by_computation.
  - vm_compute. reflexivity.
  - vm_compute. reflexivity.
  - vm_compute. reflexivity.
  - reflexivity.
  - vm_compute. reflexivity.
Defined.

Lemma FindToolsRequiredForBoard_error_order_due :
  @FindToolsRequiredForBoard backwards_order no_later_version sample_pm due
    = Returns (None, Some "tool release not found: arduino:bossac@1.9.9").
Proof.
  apply (FindToolsRequiredForBoard_error_order map_order backwards_order
           lexicographic no_later_version).
  vm_compute. reflexivity.
Defined.

Example GetAllInstalledToolsReleases_backwards :
  @GetAllInstalledToolsReleases backwards_order sample_pm
    = [avrdude_6; avr_gcc_4; avr_gcc_7] ∧
  @FindToolsRequiredForBoard backwards_order no_later_version sample_pm zero
    = Returns (Some [bossac_1; avrdude_6; avr_gcc_4], None).
Proof. by vm_compute. Qed.

Lemma RegisterEventHandler_after_Clear_sample :
  RegisterEventHandler
    (Clear {| packages := packages sample_pm; eventHandler := Some progress_log |})
    (Some progress_bar)
    = Panics "Don't try to register another event handler to the PackageManager yet!" ∧
  GetEventHandlers
    (Clear {| packages := packages sample_pm; eventHandler := Some progress_log |})
    = [Some progress_log].
Proof.
  apply (RegisterEventHandler_after_Clear
           {| packages := packages sample_pm; eventHandler := None |}).
  reflexivity.
Defined.

End coverage_examples.
